(** * staging_gfal2/state.py: status of files on the grid storage

    A shallow embedding of [Scripts/staging_gfal2/state.py] and the
    properties of its three functions: [convert_to_surl] (URL
    normalisation), [check_status] / [check_status_list] (status queries
    in batches of 100) and [percent_staged] (the percentage of staged
    files). *)

From Stdlib Require Import List Ascii String Arith ZArith Lia Bool.
From Stdlib Require Import SpecFloat QArith Qpower.
From Equations Require Import Equations.
From stdpp Require Import gmap.
Import ListNotations.

Local Open Scope nat_scope.

(** ** Python strings

    A Python [str] is modelled as the list of its characters.  The
    functions below are the methods of [str] the script calls, with the
    semantics of CPython. *)

Module PyStr.

Definition str := list ascii.

(** String literals of the source. *)
Definition lit (s : string) : str := list_ascii_of_string s.

Fixpoint eqb (a b : str) : bool :=
  match a, b with
  | [], [] => true
  | x :: a', y :: b' => Ascii.eqb x y && eqb a' b'
  | _, _ => false
  end.

(** [s.startswith(p)] *)
Fixpoint startswith (p s : str) : bool :=
  match p, s with
  | [], _ => true
  | x :: p', y :: s' => Ascii.eqb x y && startswith p' s'
  | _ :: _, [] => false
  end.

(** [s.split(sep)] for a non-empty [sep]: the string is scanned from the
    left; whenever [sep] starts at the current position the piece read so
    far is closed and the scan resumes after the separator.  [skip] counts
    the characters of a matched separator still to be passed over, [cur]
    holds the current piece in reverse. *)
Fixpoint split_scan (sep : str) (skip : nat) (cur : str) (s : str) : list str :=
  match s with
  | [] => [rev cur]
  | c :: s' =>
      match skip with
      | S k => split_scan sep k cur s'
      | O =>
          if startswith sep s
          then rev cur :: split_scan sep (length sep - 1) [] s'
          else split_scan sep 0 (c :: cur) s'
      end
  end.

(** [s.split(sep)]; [None] stands for the [ValueError] that an empty
    separator raises. *)
Definition split (sep s : str) : option (list str) :=
  match sep with
  | [] => None
  | _ :: _ => Some (split_scan sep 0 [] s)
  end.

(** [s.replace('', new, count)]: [new] is inserted before each of the
    first [count] characters, and after the last one if [count] is not
    exhausted then (on the empty [s] this is CPython from 3.9 on; the
    script only replaces in the non-empty pieces of [split()]). *)
Fixpoint replace_empty (new : str) (count : nat) (s : str) : str :=
  match count with
  | O => s
  | S n =>
      new ++ match s with
             | [] => []
             | c :: s' => c :: replace_empty new n s'
             end
  end.

(** [s.replace(old, new, count)] for a non-empty [old]: the leftmost
    non-overlapping occurrences are replaced, at most [count] of them. *)
Fixpoint replace_scan (old new : str) (count skip : nat) (s : str) : str :=
  match s with
  | [] => []
  | c :: s' =>
      match skip with
      | S k => replace_scan old new count k s'
      | O =>
          match count with
          | S n =>
              if startswith old s
              then new ++ replace_scan old new n (length old - 1) s'
              else c :: replace_scan old new count 0 s'
          | O => c :: replace_scan old new count 0 s'
          end
      end
  end.

Definition replace (old new : str) (count : nat) (s : str) : str :=
  match old with
  | [] => replace_empty new count s
  | _ :: _ => replace_scan old new count 0 s
  end.

(** The script does not say which interpreter runs it, and the two
    lines of CPython differ in what [str.split()] takes for whitespace.
    Under Python 2 the text of a file is a [str] of bytes; under Python 3
    it is a [str] of characters, here those with a code below 256. *)
Inductive python : Type :=
| Python2
| Python3.

(** The whitespace of [str.split()] without a separator.  Python 2: tab,
    line feed, vertical tab, form feed, carriage return and the space
    (9..13 and 32).  Python 3: these, the four separators 28..31, the
    next-line character 133 and the no-break space 160. *)
Definition isspace (py : python) (c : ascii) : bool :=
  let n := nat_of_ascii c in
  match py with
  | Python2 => ((9 <=? n) && (n <=? 13)) || (n =? 32)
  | Python3 =>
      ((9 <=? n) && (n <=? 13)) || ((28 <=? n) && (n <=? 31)) || (n =? 32)
      || (n =? 133) || (n =? 160)
  end.

(** The characters on which the two interpreters agree: those below 128
    other than the separators 28..31. *)
Definition plain (c : ascii) : bool :=
  let n := nat_of_ascii c in
  (n <? 128) && negb ((28 <=? n) && (n <=? 31)).

(** [s.split()]: the maximal runs of characters that are not whitespace;
    no piece is empty.  [cur] holds the current run in reverse. *)
Fixpoint words_scan (py : python) (cur : str) (s : str) : list str :=
  match s with
  | [] => match cur with [] => [] | _ :: _ => [rev cur] end
  | c :: s' =>
      if isspace py c
      then match cur with
           | [] => words_scan py [] s'
           | _ :: _ => rev cur :: words_scan py [] s'
           end
      else words_scan py (c :: cur) s'
  end.

Definition split_whitespace (py : python) (s : str) : list str :=
  words_scan py [] s.

(** [sub in s] *)
Definition occurs (sub s : str) : Prop :=
  exists pre post, s = pre ++ sub ++ post.

(** [s.find(sub)]: the lowest index at which [sub] starts in [s], counted
    from [i] at the head of [s]; [None] for Python's -1. *)
Fixpoint find_from (sub s : str) (i : nat) : option nat :=
  if startswith sub s then Some i
  else match s with
       | [] => None
       | _ :: s' => find_from sub s' (S i)
       end.

Definition find (sub s : str) : option nat := find_from sub s 0.

End PyStr.

Import PyStr.

(** ** Exceptions and effects

    The exceptions the script can end with, and a state-and-error monad
    over a world that holds what the run does to its surroundings. *)

Inductive exn : Type :=
| ValueError
| IndexError
| ZeroDivisionError
| OverflowError
| NameError (name : str)
| UnboundLocalError (name : str)
| IOError (path : str)
| GError (message : str).

Inductive outcome (A : Type) : Type :=
| Ok (a : A)
| Raise (e : exn).
Arguments Ok {A} a.
Arguments Raise {A} e.

(** What the run does: lines written to the console, files opened,
    pauses, and the calls made to the storage backend. *)
Inductive event : Type :=
| EvPrint (line : str)
| EvOpen (path : str)
| EvSleep (seconds : nat)
| EvCreatContext
| EvGetxattr (surl key : str).

Module Eff.

Definition M (W A : Type) : Type := W -> outcome A * W.

Definition ret {W A} (a : A) : M W A := fun w => (Ok a, w).

Definition raise {W A} (e : exn) : M W A := fun w => (Raise e, w).

Definition bind {W A B} (c : M W A) (k : A -> M W B) : M W B :=
  fun w =>
    match c w with
    | (Ok a, w') => k a w'
    | (Raise e, w') => (Raise e, w')
    end.

(** A pure computation that may raise. *)
Definition lift {W A} (r : outcome A) : M W A := fun w => (r, w).

End Eff.

Import Eff.

Declare Scope py_scope.
Delimit Scope py_scope with py.
Notation "x <- c ;; k" := (bind c (fun x => k))
  (at level 100, c at next level, right associativity) : py_scope.
Notation "c ;; k" := (bind c (fun _ => k))
  (at level 100, right associativity) : py_scope.
Local Open Scope py_scope.

(** ** The constants of the script *)

Definition MARKER : str := lit "/pnfs".
Definition SRM : str := lit "srm://srm.grid.sara.nl:8443".
Definition ONLINE : str := lit "ONLINE".
Definition NEARLINE : str := lit "NEARLINE".
Definition ONLINE_AND_NEARLINE : str := lit "ONLINE_AND_NEARLINE".
(** The key of the tape-only tally in [percent_staged], as written there. *)
Definition NEARLINE_KEY : str := lit "NEARLINE ".
Definition USER_STATUS : str := lit "user.status".
Definition ESC : ascii := ascii_of_nat 27.
Definition GREEN : str := ESC :: lit "[32m".
Definition RED : str := ESC :: lit "[31m".
Definition RESET : str := ESC :: lit "[0m".
Definition IMPORT_NOTICE : str := lit "GFAL2 LIBRARY CANNOT BE IMPORTED".

(** ** convert_to_surl *)

(** The body of the loop of [convert_to_surl]:
    [temp = url.split("/pnfs")[0]] and
    [url.replace(temp, "srm://srm.grid.sara.nl:8443", 1)]. *)
Definition convert_url (url : str) : outcome str :=
  match split MARKER url with
  | None => Raise ValueError
  | Some pieces =>
      match pieces with
      | [] => Raise IndexError
      | temp :: _ => Ok (replace temp SRM 1 url)
      end
  end.

(** The loop [for url in urls: surls.append(...)]. *)
Fixpoint convert_urls (urls : list str) (surls : list str) : outcome (list str) :=
  match urls with
  | [] => Ok surls
  | url :: urls' =>
      match convert_url url with
      | Ok surl => convert_urls urls' (surls ++ [surl])
      | Raise e => Raise e
      end
  end.

(** [convert_to_surl] applied to the text of the file: [f.read().split()]
    and the loop.  Opening the file is in [convert_to_surl] below. *)
Definition convert_text (py : python) (text : str) : outcome (list str) :=
  convert_urls (split_whitespace py text) [].

(** ** Python floats

    A Python [float] is an IEEE 754 binary64 number; the operations are
    those of the executable specification [SpecFloat] at precision 53 and
    maximal exponent 1024. *)

Module PyFloat.

Definition prec : Z := 53.
Definition emax : Z := 1024.

Definition float := spec_float.

(** [float(n)] for an [int]: the nearest double, [OverflowError] when
    there is none. *)
Definition of_int (n : Z) : outcome float :=
  match binary_normalize prec emax n 0 false with
  | S754_infinity _ => Raise OverflowError
  | x => Ok x
  end.

(** [x / y] *)
Definition div (x y : float) : outcome float :=
  match y with
  | S754_zero _ => Raise ZeroDivisionError
  | _ => Ok (SFdiv prec emax x y)
  end.

(** [x * y] *)
Definition mul (x y : float) : float := SFmul prec emax x y.

(** The literal [100] as a float: 100 = 0x19000000000000 * 2^-46. *)
Definition hundred : float := S754_finite false 7036874417766400 (-46).

(** The rational a finite float stands for. *)
Definition to_Q (x : float) : option Q :=
  match x with
  | S754_zero _ => Some 0%Q
  | S754_finite s m e =>
      Some (inject_Z (cond_Zopp s (Zpos m)) * Qpower 2 e)%Q
  | _ => None
  end.

End PyFloat.

(** ** Bounds on floats

    The notions the bounds on [percent_staged] are stated with. *)

(** A mantissa [m] with the location [l] of the exact value above it is
    below the bound [k]: [m <= k], and [m < k] when the value is not [m]
    itself. *)
Definition below (m : Z) (l : location) (k : Z) : Prop :=
  (m <= k)%Z /\ (l <> loc_Exact -> (m < k)%Z).

(** [m1 * 2^e1 <= m2 * 2^e2], on integers. *)
Definition dyadic_le (m1 e1 m2 e2 : Z) : Prop :=
  (m1 * 2 ^ (e1 - Z.min e1 e2) <= m2 * 2 ^ (e2 - Z.min e1 e2))%Z.

(** The integer with at most 53 significant bits that is nearest to [p],
    ties going to the even mantissa: what [float(p)] stands for. *)
Definition nearest_repr (p : Z) : Z :=
  let P := (Zdigits2 p - 53)%Z in
  match P with
  | Zpos _ =>
      (round_nearest_even (p / 2 ^ P)
         (loc_of_shr_record
            (Build_shr_record (p / 2 ^ P) (Z.odd (p / 2 ^ (P - 1)))
               (negb (p mod 2 ^ (P - 1) =? 0)))) * 2 ^ P)%Z
  | _ => p
  end.


(** ** collections.Counter

    A [Counter] is a dictionary from keys to counts; looking up a key that
    was never counted gives 0. *)

Definition counter_incr (c : gmap str nat) (k : str) : gmap str nat :=
  <[k := S (default 0 (c !! k))]> c.

Definition Counter (keys : list str) : gmap str nat :=
  fold_left counter_incr keys ∅.

Definition counter_get (c : gmap str nat) (k : str) : nat :=
  default 0 (c !! k).

(** [l[i:j]] for [0 <= i] and [0 <= j]. *)
Definition slice {A} (l : list A) (i j : nat) : list A :=
  firstn (j - i) (skipn i l).

(** The local variables of [percent_staged] before the division. *)
Record tally : Type := mkTally {
  total_files : nat;
  staged : nat;
  unstaged : nat
}.

Definition percent_staged_tally (results : list (str * str)) : tally :=
  let total_files := length results in
  let counts := Counter (map snd results) in
  let staged := counter_get counts ONLINE_AND_NEARLINE + counter_get counts ONLINE in
  let unstaged := counter_get counts NEARLINE_KEY in
  mkTally total_files staged unstaged.

(** [((float(staged))/total_files)*100] *)
Definition percent_value (results : list (str * str)) : outcome PyFloat.float :=
  let t := percent_staged_tally results in
  match PyFloat.of_int (Z.of_nat (staged t)) with
  | Raise e => Raise e
  | Ok fs =>
      match PyFloat.of_int (Z.of_nat (total_files t)) with
      | Raise e => Raise e
      | Ok ft =>
          match PyFloat.div fs ft with
          | Raise e => Raise e
          | Ok q => Ok (PyFloat.mul q PyFloat.hundred)
          end
      end
  end.

(** ** The script

    The surroundings of a run: the interpreter, the storage backend
    behind [gfal2] with a state of its own, the files that can be read,
    and [str] on floats.  The imports of [pythonpath], [sys], [time] and
    [collections] at the head of the file are taken to succeed, and a
    file that can be opened is taken to be read in full: [read_file]
    gives its text as [f.read()] returns it, [None] when [open] fails. *)

Section Program.

Variable py : python.
Variables (B Ctx : Type).
Variable gfal2_creat_context : B -> outcome Ctx * B.
Variable gfal2_getxattr : Ctx -> str -> str -> B -> outcome str * B.
Variable read_file : str -> option str.
Variable float_str : PyFloat.float -> str.

Record world : Type := mkWorld {
  trace : list event;
  backend : B
}.

Definition emit (e : event) : M world unit :=
  fun w => (Ok tt, mkWorld (trace w ++ [e]) (backend w)).

Definition print (line : str) : M world unit := emit (EvPrint line).

Definition sleep (seconds : nat) : M world unit := emit (EvSleep seconds).

(** [f=open(path,'r'); f.read(); f.close()] *)
Definition open_read (path : str) : M world str :=
  emit (EvOpen path) ;;
  match read_file path with
  | Some text => ret text
  | None => raise (IOError path)
  end.

Definition creat_context : M world Ctx :=
  emit EvCreatContext ;;
  fun w =>
    let (r, b) := gfal2_creat_context (backend w) in
    (r, mkWorld (trace w) b).

Definition getxattr (context : Ctx) (surl key : str) : M world str :=
  emit (EvGetxattr surl key) ;;
  fun w =>
    let (r, b) := gfal2_getxattr context surl key (backend w) in
    (r, mkWorld (trace w) b).

(** [try: import gfal2 / except ImportError: print(...); pass].  The
    result tells whether the global name [gfal2] is bound afterwards. *)
Definition import_gfal2 (installed : bool) : M world bool :=
  if installed then ret true
  else (print IMPORT_NOTICE ;; ret false).

(** Reading the global name [gfal2]. *)
Definition global_gfal2 (gfal2 : bool) : M world unit :=
  if gfal2 then ret tt else raise (NameError (lit "gfal2")).

(** Reading a local variable that may not have been assigned. *)
Definition local {A} (name : str) (v : option A) : M world A :=
  match v with
  | Some a => ret a
  | None => raise (UnboundLocalError name)
  end.

Definition check_status (gfal2 : bool) (surl : str) (verbose : bool)
  : M world (str * str) :=
  global_gfal2 gfal2 ;;
  context <- creat_context ;;
  status <- getxattr context surl USER_STATUS ;;
  let color :=
    if verbose
    then Some (if eqb status ONLINE_AND_NEARLINE || eqb status ONLINE
               then GREEN else RED)
    else None in
  c <- local (lit "color") color ;;
  print (surl ++ lit " " ++ c ++ status ++ RESET) ;;
  ret (surl, status).

(** [for sc in s: results.append(check_status(sc, verbose=verbose))] *)
Fixpoint check_batch (gfal2 verbose : bool) (s : list str)
    (results : list (str * str)) : M world (list (str * str)) :=
  match s with
  | [] => ret results
  | sc :: s' =>
      r <- check_status gfal2 sc verbose ;;
      check_batch gfal2 verbose s' (results ++ [r])
  end.

Definition nf : nat := 100.

(** The loop [while i<mx: ...] of [check_status_list]. *)
Equations? check_loop (gfal2 verbose : bool) (surls : list str) (mx i : nat)
    (results : list (str * str)) : M world (list (str * str))
    by wf (mx - i) lt :=
  check_loop gfal2 verbose surls mx i results with lt_dec i mx := {
    | left _ =>
        let mxi := Nat.min (i + nf) mx in
        let s := slice surls i mxi in
        results' <- check_batch gfal2 verbose s results ;;
        sleep 1 ;;
        check_loop gfal2 verbose surls mx (i + nf) results'
    | right _ => ret results }.
Proof. unfold nf. lia. Qed.

Definition check_status_list (gfal2 : bool) (surls : list str) (verbose : bool)
  : M world (list (str * str)) :=
  check_loop gfal2 verbose surls (length surls) 0 [].

Definition convert_to_surl (files : str) : M world (list str) :=
  text <- open_read files ;;
  lift (convert_text py text).

Definition percent_staged (results : list (str * str)) : M world str :=
  v <- lift (percent_value results) ;;
  let percent := float_str v in
  print (percent ++ lit " percent of files staged") ;;
  ret percent.

(** The block under [if __name__ == '__main__':] *)
Definition main (gfal2 : bool) (argv : list str) : M world str :=
  files <- lift (match nth_error argv 1 with
                 | Some f => Ok f
                 | None => Raise IndexError
                 end) ;;
  surls <- convert_to_surl files ;;
  results <- check_status_list gfal2 surls true ;;
  percent_staged results.

(** The whole file run as a script. *)
Definition script (installed : bool) (argv : list str) : M world str :=
  gfal2 <- import_gfal2 installed ;;
  main gfal2 argv.

End Program.

Arguments mkWorld {B} trace backend.
Arguments trace {B} w.
Arguments backend {B} w.

(** The colour [check_status] gives to a status when it is verbose. *)
Definition color_of (status : str) : str :=
  if PyStr.eqb status ONLINE_AND_NEARLINE || PyStr.eqb status ONLINE
  then GREEN else RED.

(** The line [check_status] writes for a SURL and its status. *)
Definition status_line (surl status : str) : str :=
  surl ++ lit " " ++ color_of status ++ status ++ RESET.

(** ** Observations on a trace *)

(** The attribute lookups of a trace, as (SURL, key), oldest first. *)
Definition queries (tr : list event) : list (str * str) :=
  flat_map (fun e => match e with EvGetxattr u k => [(u, k)] | _ => [] end) tr.

(** The pauses of a trace, in seconds. *)
Definition pauses (tr : list event) : list nat :=
  flat_map (fun e => match e with EvSleep n => [n] | _ => [] end) tr.

(** The lines written to the console. *)
Definition printed (tr : list event) : list str :=
  flat_map (fun e => match e with EvPrint l => [l] | _ => [] end) tr.

(** The files opened. *)
Definition opened (tr : list event) : list str :=
  flat_map (fun e => match e with EvOpen f => [f] | _ => [] end) tr.

(** The number of batches of [nf] for [k] URLs: [k / nf] rounded up. *)
Definition batches (k : nat) : nat := (k + (nf - 1)) / nf.

(** The number of results whose status is exactly [status]. *)
Definition count_status (status : str) (results : list (str * str)) : nat :=
  length (List.filter (fun r => PyStr.eqb (snd r) status) results).

(** ** A sample installation

    A backend that keeps count of the lookups it served and answers from
    a fixed table, a file system with one file, and a stand-in for [str]
    on floats. *)

Module Sample.

Definition file1 : str := lit "srm://srm.grid.sara.nl:8443/pnfs/a/file1".
Definition file2 : str := lit "srm://srm.grid.sara.nl:8443/pnfs/b/file2".
Definition file3 : str := lit "srm://srm.grid.sara.nl:8443/pnfs/c/file3".

Definition creat_context (b : nat) : outcome unit * nat := (Ok tt, b).

Definition getxattr (_ : unit) (surl key : str) (b : nat) : outcome str * nat :=
  if PyStr.eqb surl file1 then (Ok ONLINE, S b)
  else if PyStr.eqb surl file2 then (Ok NEARLINE, S b)
  else if PyStr.eqb surl file3 then (Ok ONLINE_AND_NEARLINE, S b)
  else (Ok (lit "UNAVAILABLE"), S b).

Definition files : str := lit "files".

Definition read_file (path : str) : option str :=
  if PyStr.eqb path files
  then Some (lit "/pnfs/a/file1 gsiftp://host/pnfs/b/file2")
  else if PyStr.eqb path (lit "empty") then Some []
  else None.

Definition float_str (x : PyFloat.float) : str :=
  match x with
  | S754_finite false 4691249611844266 (-46) => lit "66.66666666666666"
  | _ => lit "?"
  end.

Definition world0 : world nat := mkWorld [] 0.

Definition results3 : list (str * str) :=
  [(file1, ONLINE); (file2, NEARLINE); (file3, ONLINE_AND_NEARLINE)].

End Sample.

(** Files whose URLs are set apart by characters that only one of the two
    interpreters takes for whitespace: the no-break space 160 and the file
    separator 28. *)
Module Spaces.

Definition nbsp : ascii := ascii_of_nat 160.
Definition fs : ascii := ascii_of_nat 28.

Definition nbsp_text : str := lit "a/pnfs/x" ++ [nbsp] ++ lit "b/pnfs/y".
Definition fs_text : str := lit "a/pnfs/x" ++ [fs] ++ lit "b/pnfs/y".

Definition files : str := lit "files".
Definition blank : str := lit "blank".
Definition separated : str := lit "separated".

Definition read_file (path : str) : option str :=
  if PyStr.eqb path files then Some nbsp_text
  else if PyStr.eqb path blank then Some [nbsp]
  else if PyStr.eqb path separated then Some fs_text
  else None.

End Spaces.

(** The number of contexts created. *)
Definition contexts (tr : list event) : nat :=
  length (flat_map (fun e => match e with EvCreatContext => [tt] | _ => [] end) tr).

(** The lookup of [user.status] for [u] is answered, in whatever state the
    backend is. *)
Definition answered {B Ctx : Type}
    (getx : Ctx -> str -> str -> B -> outcome str * B) (u : str) : Prop :=
  forall c b, exists status b', getx c u USER_STATUS b = (Ok status, b').

(** The lookup of [user.status] for [u] ends with the exception [e], in
    whatever state the backend is. *)
Definition refused {B Ctx : Type}
    (getx : Ctx -> str -> str -> B -> outcome str * B) (u : str) (e : exn)
  : Prop :=
  forall c b, exists b', getx c u USER_STATUS b = (Raise e, b').

(** ** A backend with a missing file

    As the sample backend, but the lookup for one SURL is refused. *)

Module Faulty.

Definition missing : str := lit "srm://srm.grid.sara.nl:8443/pnfs/d/missing".

Definition no_such_file : exn := GError (lit "No such file or directory").

Definition getxattr (c : unit) (surl key : str) (b : nat) : outcome str * nat :=
  if PyStr.eqb surl missing then (Raise no_such_file, S b)
  else Sample.getxattr c surl key b.

Definition no_backend : exn := GError (lit "Could not create the context").

Definition creat_context (b : nat) : outcome unit * nat := (Raise no_backend, b).

End Faulty.

(** * Properties *)

(** ** Strings *)

Section StrFacts.

Lemma startswith_app (p t : str) : startswith p (p ++ t) = true.
Proof.
  induction p as [|c p IH]; simpl; [reflexivity|].
  rewrite Ascii.eqb_refl. exact IH.
Qed.

Lemma startswith_inv (p s : str) :
  startswith p s = true -> exists t, s = p ++ t.
Proof.
  revert s. induction p as [|c p IH]; intros s H.
  - exists s. reflexivity.
  - destruct s as [|d s]; simpl in H; [discriminate|].
    apply andb_prop in H. destruct H as [Hc Hp].
    apply Ascii.eqb_eq in Hc. subst d.
    destruct (IH s Hp) as [t ->]. exists t. reflexivity.
Qed.

Lemma startswith_refl (s : str) : startswith s s = true.
Proof.
  rewrite <- (app_nil_r s) at 2. apply startswith_app.
Qed.

Lemma eqb_eq (a b : str) : PyStr.eqb a b = true <-> a = b.
Proof.
  revert b. induction a as [|x a IH]; intros [|y b]; simpl;
    try (split; [discriminate | discriminate]); [tauto|].
  rewrite andb_true_iff, Ascii.eqb_eq, IH.
  split; [intros [-> ->]; reflexivity | intros [= -> ->]; auto].
Qed.

Lemma str_eqb_refl (a : str) : PyStr.eqb a a = true.
Proof. apply eqb_eq. reflexivity. Qed.

(** [find] gives an occurrence, and the first one. *)
Lemma find_from_Some (sub s : str) (i j : nat) :
  find_from sub s i = Some j ->
  i <= j /\ startswith sub (skipn (j - i) s) = true /\
  forall k, k < j - i -> startswith sub (skipn k s) = false.
Proof.
  revert i. induction s as [|c s IH]; intros i; simpl.
  - destruct (startswith sub []) eqn:E; [|discriminate].
    intros [= <-]. rewrite Nat.sub_diag. simpl.
    repeat split; [lia | exact E | intros k Hk; lia].
  - destruct (startswith sub (c :: s)) eqn:E.
    + intros [= <-]. rewrite Nat.sub_diag. simpl.
      repeat split; [lia | exact E | intros k Hk; lia].
    + intros H. apply IH in H. destruct H as (Hle & Hat & Hbefore).
      replace (j - i) with (S (j - S i)) by lia. simpl.
      repeat split; [lia | exact Hat |].
      intros [|k] Hk; simpl; [exact E | apply Hbefore; lia].
Qed.

Lemma find_from_None (sub s : str) (i : nat) :
  find_from sub s i = None -> forall k, startswith sub (skipn k s) = false.
Proof.
  revert i. induction s as [|c s IH]; intros i; simpl.
  - destruct (startswith sub []) eqn:E; [discriminate|].
    intros _ [|k]; exact E.
  - destruct (startswith sub (c :: s)) eqn:E; [discriminate|].
    intros H [|k]; simpl; [exact E | exact (IH _ H k)].
Qed.

Lemma skipn_app_exact (pre t : str) : skipn (length pre) (pre ++ t) = t.
Proof. induction pre; simpl; auto. Qed.

(** [find] answers [None] exactly when there is no occurrence. *)
Lemma find_None_iff (sub s : str) : find sub s = None <-> ~ occurs sub s.
Proof.
  split.
  - intros H (pre & post & ->).
    pose proof (find_from_None _ _ _ H (length pre)) as Hk.
    rewrite skipn_app_exact, startswith_app in Hk. discriminate.
  - intros Hno. destruct (find sub s) as [j|] eqn:E; [|reflexivity].
    exfalso. apply Hno. apply find_from_Some in E.
    destruct E as (_ & Hat & _). rewrite Nat.sub_0_r in Hat.
    apply startswith_inv in Hat. destruct Hat as [t Ht].
    exists (firstn j s), t. rewrite <- Ht. symmetry. apply firstn_skipn.
Qed.

(** [find] answers the length of the shortest prefix before an
    occurrence. *)
Lemma find_Some_first (sub s : str) (j : nat) :
  find sub s = Some j ->
  (exists post, s = firstn j s ++ sub ++ post /\ length (firstn j s) = j) /\
  forall pre post, s = pre ++ sub ++ post -> j <= length pre.
Proof.
  intros E. apply find_from_Some in E. destruct E as (_ & Hat & Hbefore).
  rewrite Nat.sub_0_r in Hat, Hbefore. split.
  - pose proof Hat as Hat'.
    apply startswith_inv in Hat. destruct Hat as [t Ht].
    exists t. rewrite <- Ht. split; [symmetry; apply firstn_skipn|].
    apply firstn_length_le.
    destruct (le_lt_dec j (length s)) as [?|Hlt]; [assumption|].
    destruct j as [|j]; [lia|].
    specialize (Hbefore (length s) Hlt).
    rewrite skipn_all2 in Hat' by lia.
    rewrite skipn_all in Hbefore. congruence.
  - intros pre post ->.
    destruct (le_lt_dec j (length pre)) as [?|Hlt]; [assumption|].
    specialize (Hbefore _ Hlt).
    rewrite skipn_app_exact, startswith_app in Hbefore. discriminate.
Qed.

End StrFacts.

(** ** convert_to_surl *)

Section ConvertFacts.

Lemma startswith_nil_r (sep : str) : sep <> [] -> startswith sep [] = false.
Proof. destruct sep; [congruence | reflexivity]. Qed.

(** The first piece of [split] is what precedes the first occurrence of
    the separator. *)
Lemma split_scan_head (sep : str) (k : nat) :
  sep <> [] ->
  forall (s cur : str),
    startswith sep (skipn k s) = true ->
    (forall k', k' < k -> startswith sep (skipn k' s) = false) ->
    exists rest, split_scan sep 0 cur s = (rev cur ++ firstn k s) :: rest.
Proof.
  intros Hsep. induction k as [|k IH]; intros s cur Hat Hbefore.
  - rewrite skipn_O in Hat. destruct s as [|c s].
    + rewrite startswith_nil_r in Hat by assumption. discriminate.
    + cbn [split_scan]. rewrite Hat. rewrite app_nil_r. eauto.
  - destruct s as [|c s].
    + rewrite skipn_nil, startswith_nil_r in Hat by assumption. discriminate.
    + pose proof (Hbefore 0 ltac:(lia)) as H0. rewrite skipn_O in H0.
      rewrite skipn_cons in Hat.
      cbn [split_scan]. rewrite H0.
      destruct (IH s (c :: cur)) as [rest Hrest].
      * exact Hat.
      * intros k' Hk'. rewrite <- (skipn_cons k' c s). apply Hbefore. lia.
      * exists rest. rewrite Hrest. rewrite firstn_cons. simpl rev.
        rewrite <- app_assoc. reflexivity.
Qed.

(** Without an occurrence of the separator [split] gives the string back
    as its only piece. *)
Lemma split_scan_absent (sep s cur : str) :
  (forall k, startswith sep (skipn k s) = false) ->
  split_scan sep 0 cur s = [rev cur ++ s].
Proof.
  revert cur. induction s as [|c s IH]; intros cur Hno.
  - simpl. rewrite app_nil_r. reflexivity.
  - pose proof (Hno 0) as H0. rewrite skipn_O in H0.
    cbn [split_scan]. rewrite H0. rewrite IH.
    + simpl rev. rewrite <- app_assoc. reflexivity.
    + intros k. rewrite <- (skipn_cons k c s). apply Hno.
Qed.

Lemma replace_scan_exhausted (old new : str) (k : nat) (s : str) :
  replace_scan old new 0 k s = skipn k s.
Proof.
  revert k. induction s as [|c s IH]; intros [|k]; simpl; try reflexivity.
  - rewrite IH. reflexivity.
  - apply IH.
Qed.

(** Replacing once a prefix of the string. *)
Lemma replace_prefix_once (pre new t : str) :
  replace pre new 1 (pre ++ t) = new ++ t.
Proof.
  destruct pre as [|c pre].
  - simpl. destruct t; reflexivity.
  - unfold replace. change ((c :: pre) ++ t) with (c :: (pre ++ t)).
    cbn [replace_scan].
    change (c :: pre ++ t) with ((c :: pre) ++ t).
    rewrite startswith_app. rewrite replace_scan_exhausted.
    replace (length (c :: pre) - 1) with (length pre) by (simpl; lia).
    rewrite skipn_app_exact. reflexivity.
Qed.

Lemma MARKER_nonempty : MARKER <> [].
Proof. discriminate. Qed.

Lemma convert_url_found (url : str) (j : nat) :
  find MARKER url = Some j -> convert_url url = Ok (SRM ++ skipn j url).
Proof.
  intros E. apply find_from_Some in E. destruct E as (_ & Hat & Hbefore).
  rewrite Nat.sub_0_r in Hat, Hbefore.
  destruct (split_scan_head MARKER j MARKER_nonempty url [] Hat Hbefore)
    as [rest Hrest].
  unfold convert_url, split. change MARKER with ("/"%char :: lit "pnfs") at 1.
  cbv iota. rewrite Hrest. simpl rev. cbn [app].
  rewrite <- (firstn_skipn j url) at 2.
  rewrite replace_prefix_once. reflexivity.
Qed.

Lemma convert_url_not_found (url : str) :
  find MARKER url = None -> convert_url url = Ok SRM.
Proof.
  intros E. pose proof (find_from_None _ _ _ E) as Hno.
  unfold convert_url, split. change MARKER with ("/"%char :: lit "pnfs") at 1.
  cbv iota. change ("/"%char :: lit "pnfs") with MARKER.
  rewrite (split_scan_absent MARKER url [] Hno). simpl rev. cbn [app].
  rewrite <- (app_nil_r url) at 2.
  rewrite replace_prefix_once. rewrite app_nil_r. reflexivity.
Qed.

(** [convert_url] never raises. *)
Lemma convert_url_total (url : str) : exists surl, convert_url url = Ok surl.
Proof.
  destruct (find MARKER url) as [j|] eqn:E.
  - eexists. apply (convert_url_found url j E).
  - eexists. apply (convert_url_not_found url E).
Qed.

(** The loop converts the URLs one by one, in their order. *)
Lemma convert_urls_run (urls : list str) :
  forall acc, exists surls,
    convert_urls urls acc = Ok (acc ++ surls) /\
    Forall2 (fun url surl => convert_url url = Ok surl) urls surls.
Proof.
  induction urls as [|url urls IH]; intros acc.
  - exists []. rewrite app_nil_r. split; [reflexivity | constructor].
  - destruct (convert_url_total url) as [surl Hu].
    destruct (IH (acc ++ [surl])) as (surls & Hrun & Hall).
    exists (surl :: surls). cbn [convert_urls]. rewrite Hu, Hrun.
    rewrite <- app_assoc. split; [reflexivity | constructor; assumption].
Qed.

(** [convert_to_surl] on a file that can be read: one SURL for each
    whitespace-separated URL of the file, in the order of the file. *)
Lemma convert_to_surl_run (py : python) (B : Type)
    (read_file : str -> option str) (files text : str) (w : world B) :
  read_file files = Some text ->
  exists surls,
    convert_to_surl py B read_file files w =
      (Ok surls, mkWorld (trace w ++ [EvOpen files]) (backend w)) /\
    Forall2 (fun url surl => convert_url url = Ok surl)
      (split_whitespace py text) surls.
Proof.
  intros Hread.
  destruct (convert_urls_run (split_whitespace py text) [])
    as (surls & Hrun & Hall).
  exists surls. split; [|exact Hall].
  cbv [convert_to_surl bind open_read emit ret raise lift]. cbn [trace backend].
  rewrite Hread. unfold convert_text. rewrite Hrun. reflexivity.
Qed.

(** The two interpreters part on the no-break space and on the file
    separator: Python 3 splits at both, Python 2 at neither. *)
Lemma split_whitespace_nbsp :
  split_whitespace Python3 Spaces.nbsp_text = [lit "a/pnfs/x"; lit "b/pnfs/y"] /\
  split_whitespace Python2 Spaces.nbsp_text = [Spaces.nbsp_text].
Proof. split; reflexivity. Qed.

Lemma split_whitespace_fs :
  split_whitespace Python3 Spaces.fs_text = [lit "a/pnfs/x"; lit "b/pnfs/y"] /\
  split_whitespace Python2 Spaces.fs_text = [Spaces.fs_text].
Proof. split; reflexivity. Qed.

(** On the characters below 128 other than the separators 28..31 the two
    interpreters agree, and so do they on a text made of such. *)
Lemma isspace_plain (c : ascii) :
  plain c = true -> isspace Python2 c = isspace Python3 c.
Proof.
  unfold plain, isspace. intros H.
  apply andb_prop in H. destruct H as [Hlt Hsep].
  apply Nat.ltb_lt in Hlt. apply negb_true_iff in Hsep.
  rewrite Hsep.
  assert (H133 : (nat_of_ascii c =? 133) = false) by (apply Nat.eqb_neq; lia).
  assert (H160 : (nat_of_ascii c =? 160) = false) by (apply Nat.eqb_neq; lia).
  rewrite H133, H160.
  destruct ((9 <=? nat_of_ascii c) && (nat_of_ascii c <=? 13));
    destruct (nat_of_ascii c =? 32); reflexivity.
Qed.

Lemma words_scan_plain (s : str) :
  forallb plain s = true ->
  forall cur, words_scan Python2 cur s = words_scan Python3 cur s.
Proof.
  induction s as [|c s IH]; intros H cur; cbn [words_scan]; [reflexivity|].
  cbn [forallb] in H. apply andb_prop in H. destruct H as [Hc Hs].
  rewrite (isspace_plain c Hc), !(IH Hs). reflexivity.
Qed.

Lemma split_whitespace_plain (text : str) :
  forallb plain text = true ->
  split_whitespace Python2 text = split_whitespace Python3 text.
Proof. intros H. apply (words_scan_plain text H). Qed.

End ConvertFacts.

(** C1. A URL that contains the marker [/pnfs] is turned into the prefix
    [srm://srm.grid.sara.nl:8443] followed by the URL from the first
    occurrence of the marker on, unchanged ([find] gives the index of that
    occurrence, see [find_Some_first]); [convert_to_surl] does so for each
    URL of the file, in the order of the file; a file with the two URLs
    [/pnfs/a/file1] and [gsiftp://host/pnfs/b/file2] gives
    [srm://srm.grid.sara.nl:8443/pnfs/a/file1] and
    [srm://srm.grid.sara.nl:8443/pnfs/b/file2].  The URLs of the file are
    the pieces of [f.read().split()] under the interpreter that runs the
    script, whichever it is. *)
Theorem convert_to_surl_marker :
  (forall (url : str) (j : nat),
      find MARKER url = Some j ->
      convert_url url = Ok (SRM ++ skipn j url)) /\
  (forall (py : python) (B : Type) (read_file : str -> option str)
          (files text : str) (w : world B),
      read_file files = Some text ->
      exists surls,
        convert_to_surl py B read_file files w =
          (Ok surls, mkWorld (trace w ++ [EvOpen files]) (backend w)) /\
        Forall2 (fun url surl => convert_url url = Ok surl)
          (split_whitespace py text) surls) /\
  (forall py : python,
      convert_to_surl py nat Sample.read_file Sample.files Sample.world0 =
        (Ok [lit "srm://srm.grid.sara.nl:8443/pnfs/a/file1";
             lit "srm://srm.grid.sara.nl:8443/pnfs/b/file2"],
         mkWorld [EvOpen Sample.files] 0)).
Proof.
  split; [|split].
  - exact convert_url_found.
  - exact convert_to_surl_run.
  - intros []; reflexivity.
Qed.

Lemma convert_to_surl_marker_witness :
  (find MARKER (lit "gsiftp://host/pnfs/b/file2") = Some 13 /\
   convert_url (lit "gsiftp://host/pnfs/b/file2") =
     Ok (SRM ++ skipn 13 (lit "gsiftp://host/pnfs/b/file2"))) /\
  (Spaces.read_file Spaces.files = Some Spaces.nbsp_text /\
   exists surls,
     convert_to_surl Python3 nat Spaces.read_file Spaces.files Sample.world0 =
       (Ok surls, mkWorld [EvOpen Spaces.files] 0) /\
     Forall2 (fun url surl => convert_url url = Ok surl)
       [lit "a/pnfs/x"; lit "b/pnfs/y"] surls) /\
  (Spaces.read_file Spaces.files = Some Spaces.nbsp_text /\
   exists surls,
     convert_to_surl Python2 nat Spaces.read_file Spaces.files Sample.world0 =
       (Ok surls, mkWorld [EvOpen Spaces.files] 0) /\
     Forall2 (fun url surl => convert_url url = Ok surl)
       [Spaces.nbsp_text] surls).
Proof.
  split; [|split].
  - split; [reflexivity|].
    apply (proj1 convert_to_surl_marker). reflexivity.
  - split; [reflexivity|].
    apply (proj1 (proj2 convert_to_surl_marker) Python3 nat Spaces.read_file
             Spaces.files Spaces.nbsp_text Sample.world0).
    reflexivity.
  - split; [reflexivity|].
    apply (proj1 (proj2 convert_to_surl_marker) Python2 nat Spaces.read_file
             Spaces.files Spaces.nbsp_text Sample.world0).
    reflexivity.
Defined.

(** C10. A URL without the marker [/pnfs] is turned into the bare prefix
    [srm://srm.grid.sara.nl:8443]: nothing of the URL is kept, and no
    error is raised. *)
Theorem convert_to_surl_no_marker (url : str) :
  ~ occurs MARKER url -> convert_url url = Ok SRM.
Proof.
  intros H. apply convert_url_not_found. apply find_None_iff. exact H.
Qed.

Lemma no_marker_example : ~ occurs MARKER (lit "gsiftp://host/data/file3").
Proof. apply find_None_iff. reflexivity. Qed.

Lemma convert_to_surl_no_marker_witness :
  ~ occurs MARKER (lit "gsiftp://host/data/file3") /\
  convert_url (lit "gsiftp://host/data/file3") = Ok SRM.
Proof.
  split.
  - exact no_marker_example.
  - apply convert_to_surl_no_marker. exact no_marker_example.
Defined.

(** ** check_status and check_status_list *)

Section StatusFacts.

Variables (B Ctx : Type).
Variable gfal2_creat_context : B -> outcome Ctx * B.
Variable gfal2_getxattr : Ctx -> str -> str -> B -> outcome str * B.

Local Abbreviation status_B :=
  (check_status B Ctx gfal2_creat_context gfal2_getxattr).
Local Abbreviation batch_B :=
  (check_batch B Ctx gfal2_creat_context gfal2_getxattr).
Local Abbreviation loop_B :=
  (check_loop B Ctx gfal2_creat_context gfal2_getxattr).
Local Abbreviation status_list_B :=
  (check_status_list B Ctx gfal2_creat_context gfal2_getxattr).

Ltac run_status :=
  cbv [check_status bind global_gfal2 ret creat_context getxattr
       emit print local raise];
  cbn [backend trace].

(** One call of [check_status] with a backend that answers. *)
Lemma check_status_run (surl : str) (verbose : bool) (w : world B)
    (c : Ctx) (b1 b2 : B) (status : str) :
  gfal2_creat_context (backend w) = (Ok c, b1) ->
  gfal2_getxattr c surl USER_STATUS b1 = (Ok status, b2) ->
  status_B true surl verbose w =
    if verbose
    then (Ok (surl, status),
          mkWorld (trace w ++ [EvCreatContext; EvGetxattr surl USER_STATUS;
                               EvPrint (status_line surl status)]) b2)
    else (Raise (UnboundLocalError (lit "color")),
          mkWorld (trace w ++ [EvCreatContext; EvGetxattr surl USER_STATUS]) b2).
Proof.
  intros Hc Hg. run_status. rewrite Hc. cbn [backend trace]. rewrite Hg.
  destruct verbose; cbn [backend trace]; rewrite <- !app_assoc; reflexivity.
Qed.

(** Without the verbose flag no call of [check_status] returns. *)
Lemma check_status_quiet_raises (gfal2 : bool) (surl : str) (w : world B) :
  exists e w', status_B gfal2 surl false w = (Raise e, w').
Proof.
  run_status. destruct gfal2; [|eauto].
  destruct (gfal2_creat_context (backend w)) as [[c|e] b1];
    cbn [backend trace]; [|eauto].
  destruct (gfal2_getxattr c surl USER_STATUS b1) as [[status|e] b2];
    cbn [backend trace]; eauto.
Qed.

(** Without the global name [gfal2] the call ends before the backend is
    touched. *)
Lemma check_status_unbound (surl : str) (verbose : bool) (w : world B) :
  status_B false surl verbose w = (Raise (NameError (lit "gfal2")), w).
Proof. reflexivity. Qed.

Lemma check_loop_eq (gfal2 verbose : bool) (surls : list str) (mx i : nat)
    (results : list (str * str)) :
  loop_B gfal2 verbose surls mx i results =
  if lt_dec i mx then
    (results' <- batch_B gfal2 verbose
                   (slice surls i (Nat.min (i + nf) mx)) results ;;
     sleep B 1 ;;
     loop_B gfal2 verbose surls mx (i + nf) results')
  else ret results.
Proof.
  simp check_loop. destruct (lt_dec i mx); reflexivity.
Qed.

Lemma slice_batch {A} (l : list A) (i : nat) :
  slice l i (Nat.min (i + nf) (length l)) ++ skipn (i + nf) l = skipn i l.
Proof.
  unfold slice. rewrite Nat.add_comm, <- skipn_skipn.
  set (t := skipn i l).
  assert (Ht : length t = length l - i) by (unfold t; apply length_skipn).
  clearbody t.
  destruct (le_lt_dec nf (length t)) as [Hle|Hlt].
  - replace (Nat.min (nf + i) (length l) - i) with nf by lia.
    apply firstn_skipn.
  - replace (Nat.min (nf + i) (length l) - i) with (length t) by lia.
    rewrite firstn_all, skipn_all2 by lia. apply app_nil_r.
Qed.

Lemma batches_step (d : nat) : 0 < d -> batches d = S (batches (d - nf)).
Proof.
  intros Hd. unfold batches, nf. change (100 - 1) with 99.
  destruct (le_lt_dec 100 d) as [Hle|Hlt].
  - replace (d + 99) with ((d - 100 + 99) + 1 * 100) by lia.
    rewrite Nat.div_add by lia. lia.
  - replace (d - 100) with 0 by lia.
    change ((0 + 99) / 100) with 0.
    symmetry. apply (Nat.div_unique _ _ _ (d - 1)); lia.
Qed.

Section Answering.

(** The backend is in order: a context can be created and every lookup of
    [user.status] is answered. *)
Hypothesis creat_ok :
  forall b, exists c b', gfal2_creat_context b = (Ok c, b').
Hypothesis getxattr_ok :
  forall c surl b, exists status b',
    gfal2_getxattr c surl USER_STATUS b = (Ok status, b').

Lemma check_batch_run (s : list str) :
  forall (results : list (str * str)) (w : world B),
  exists rs tr b',
    batch_B true true s results w =
      (Ok (results ++ rs), mkWorld (trace w ++ tr) b') /\
    map fst rs = s /\
    queries tr = map (fun u => (u, USER_STATUS)) s /\
    pauses tr = [].
Proof.
  induction s as [|sc s IH]; intros results w.
  - exists [], [], (backend w). cbn. rewrite !app_nil_r.
    destruct w; auto.
  - destruct (creat_ok (backend w)) as (c & b1 & Hc).
    destruct (getxattr_ok c sc b1) as (status & b2 & Hg).
    pose proof (check_status_run sc true w c b1 b2 status Hc Hg) as Hrun.
    cbn iota in Hrun.
    cbn [check_batch]. unfold bind at 1. rewrite Hrun.
    destruct (IH (results ++ [(sc, status)]) (mkWorld
      (trace w ++ [EvCreatContext; EvGetxattr sc USER_STATUS;
                   EvPrint (status_line sc status)]) b2))
      as (rs & tr & b' & Hrest & Hfst & Hq & Hp).
    exists ((sc, status) :: rs),
      ([EvCreatContext; EvGetxattr sc USER_STATUS;
        EvPrint (status_line sc status)] ++ tr), b'.
    rewrite Hrest. cbn [trace]. rewrite <- !app_assoc.
    repeat split.
    + cbn [map fst]. rewrite Hfst. reflexivity.
    + unfold queries in *. cbn [flat_map app]. rewrite Hq. reflexivity.
    + unfold pauses in *. cbn [flat_map app]. exact Hp.
Qed.

Lemma check_loop_run (surls : list str) (n : nat) :
  forall (i : nat) (results : list (str * str)) (w : world B),
  length surls - i = n ->
  exists rs tr b',
    loop_B true true surls (length surls) i results w =
      (Ok (results ++ rs), mkWorld (trace w ++ tr) b') /\
    map fst rs = skipn i surls /\
    queries tr = map (fun u => (u, USER_STATUS)) (skipn i surls) /\
    pauses tr = repeat 1 (batches (length surls - i)) /\
    (i < length surls -> exists tr0, tr = tr0 ++ [EvSleep 1]).
Proof.
  induction n as [n IH] using lt_wf_ind. intros i results w Hn.
  rewrite check_loop_eq. destruct (lt_dec i (length surls)) as [Hlt|Hge].
  - destruct (check_batch_run
                (slice surls i (Nat.min (i + nf) (length surls))) results w)
      as (rs1 & tr1 & b1 & Hb & Hfst1 & Hq1 & Hp1).
    unfold bind at 1. rewrite Hb.
    unfold bind at 1. unfold sleep, emit. cbn [trace backend].
    destruct (IH (length surls - (i + nf)) ltac:(unfold nf; lia) (i + nf)
                (results ++ rs1)
                (mkWorld ((trace w ++ tr1) ++ [EvSleep 1]) b1) eq_refl)
      as (rs2 & tr2 & b2 & Hl & Hfst2 & Hq2 & Hp2 & Hlast).
    exists (rs1 ++ rs2), (tr1 ++ [EvSleep 1] ++ tr2), b2.
    rewrite Hl. cbn [trace]. rewrite <- !app_assoc.
    repeat split.
    + rewrite map_app, Hfst1, Hfst2. apply slice_batch.
    + unfold queries in *. rewrite !flat_map_app, Hq1, Hq2. cbn [flat_map app].
      rewrite <- map_app. f_equal. apply slice_batch.
    + unfold pauses in *. rewrite !flat_map_app, Hp1, Hp2. cbn [flat_map app].
      rewrite (batches_step (length surls - i)) by lia.
      replace (length surls - i - nf) with (length surls - (i + nf)) by lia.
      reflexivity.
    + intros _. destruct (lt_dec (i + nf) (length surls)) as [Hmore|Hdone].
      * destruct (Hlast Hmore) as [tr0 ->].
        exists (tr1 ++ [EvSleep 1] ++ tr0). rewrite <- !app_assoc. reflexivity.
      * exists tr1. f_equal.
        replace (length surls - (i + nf)) with 0 in Hp2 by lia.
        rewrite check_loop_eq in Hl.
        destruct (lt_dec (i + nf) (length surls)); [contradiction|].
        unfold ret in Hl. injection Hl as _ Htr.
        rewrite <- (app_nil_r (_ ++ [EvSleep 1])) in Htr at 1.
        apply app_inv_head in Htr. subst tr2. reflexivity.
  - exists [], [], (backend w). unfold ret. rewrite !app_nil_r.
    rewrite skipn_all2 by lia.
    replace (length surls - i) with 0 by lia.
    destruct w; repeat split; try reflexivity. intros; cbn in *; lia.
Qed.

Lemma check_status_list_run (surls : list str) (w : world B) :
  exists results tr b',
    status_list_B true surls true w =
      (Ok results, mkWorld (trace w ++ tr) b') /\
    map fst results = surls /\
    queries tr = map (fun u => (u, USER_STATUS)) surls /\
    pauses tr = repeat 1 (batches (length surls)) /\
    (surls <> [] -> exists tr0, tr = tr0 ++ [EvSleep 1]).
Proof.
  destruct (check_loop_run surls (length surls) 0 [] w ltac:(lia))
    as (rs & tr & b' & Hl & Hfst & Hq & Hp & Hlast).
  exists rs, tr, b'. unfold check_status_list.
  rewrite Hl. rewrite Nat.sub_0_r in Hp. rewrite skipn_O in Hfst, Hq.
  repeat split; auto.
  intros Hne. apply Hlast. destruct surls; [congruence | cbn; lia].
Qed.

End Answering.

End StatusFacts.

(** [batches k] is [k / 100] rounded up. *)
Lemma batches_ceiling (k : nat) : k <= 100 * batches k < k + 100.
Proof.
  unfold batches, nf. change (100 - 1) with 99.
  pose proof (Nat.div_mod_eq (k + 99) 100) as E.
  pose proof (Nat.mod_upper_bound (k + 99) 100 ltac:(lia)) as U.
  lia.
Qed.

Lemma color_of_green (status : str) :
  color_of status = GREEN <-> status = ONLINE \/ status = ONLINE_AND_NEARLINE.
Proof.
  unfold color_of.
  destruct (PyStr.eqb status ONLINE_AND_NEARLINE) eqn:E1;
    destruct (PyStr.eqb status ONLINE) eqn:E2; cbn [orb];
    try (apply eqb_eq in E1); try (apply eqb_eq in E2);
    try (split; [auto | reflexivity]).
  split; [discriminate|].
  intros [->| ->]; [rewrite str_eqb_refl in E2 | rewrite str_eqb_refl in E1];
    discriminate.
Qed.

(** With the verbose flag the pair is written to the console, in green
    for the two disk-resident statuses and in red for any other, and
    returned. *)
Lemma check_status_verbose_echo (B Ctx : Type)
    (creat : B -> outcome Ctx * B)
    (getx : Ctx -> str -> str -> B -> outcome str * B)
    (surl : str) (w : world B) (c : Ctx) (b1 b2 : B) (status : str) :
  creat (backend w) = (Ok c, b1) ->
  getx c surl USER_STATUS b1 = (Ok status, b2) ->
  exists w',
    check_status B Ctx creat getx true surl true w = (Ok (surl, status), w') /\
    printed (trace w') =
      printed (trace w) ++
      [surl ++ lit " " ++
       (if PyStr.eqb status ONLINE_AND_NEARLINE || PyStr.eqb status ONLINE
        then GREEN else RED) ++ status ++ RESET].
Proof.
  intros Hc Hg. eexists. split.
  - exact (check_status_run B Ctx creat getx surl true w c b1 b2 status Hc Hg).
  - cbn [trace]. unfold printed. rewrite flat_map_app. reflexivity.
Qed.

(** C7 (the code departs from it). Without the verbose flag
    [check_status] does not return the pair: for the sample file that is
    ONLINE the call ends with [UnboundLocalError] for [color], after the
    lookup and with nothing written to the console. *)
Theorem check_status_quiet_sample :
  check_status nat unit Sample.creat_context Sample.getxattr
    true Sample.file1 false Sample.world0 =
  (Raise (UnboundLocalError (lit "color")),
   mkWorld [EvCreatContext; EvGetxattr Sample.file1 USER_STATUS] 1).
Proof. reflexivity. Qed.

(** C9. Without the verbose flag no call of [check_status] returns: the
    line for the console is built from [color], which is assigned under
    [if verbose] only, so a call whose lookup is answered ends with
    [UnboundLocalError] for [color]; with the flag the same call returns
    the pair. *)
Theorem check_status_quiet_never_returns (B Ctx : Type)
    (creat : B -> outcome Ctx * B)
    (getx : Ctx -> str -> str -> B -> outcome str * B)
    (surl : str) (w : world B) :
  (forall gfal2, exists e w',
      check_status B Ctx creat getx gfal2 surl false w = (Raise e, w')) /\
  (forall c b1 status b2,
      creat (backend w) = (Ok c, b1) ->
      getx c surl USER_STATUS b1 = (Ok status, b2) ->
      check_status B Ctx creat getx true surl false w =
        (Raise (UnboundLocalError (lit "color")),
         mkWorld (trace w ++ [EvCreatContext; EvGetxattr surl USER_STATUS]) b2) /\
      check_status B Ctx creat getx true surl true w =
        (Ok (surl, status),
         mkWorld (trace w ++ [EvCreatContext; EvGetxattr surl USER_STATUS;
                              EvPrint (status_line surl status)]) b2)).
Proof.
  split.
  - intros gfal2. apply check_status_quiet_raises.
  - intros c b1 status b2 Hc Hg. split.
    + exact (check_status_run B Ctx creat getx surl false w c b1 b2 status Hc Hg).
    + exact (check_status_run B Ctx creat getx surl true w c b1 b2 status Hc Hg).
Qed.

Lemma check_status_quiet_never_returns_witness :
  Sample.creat_context (backend Sample.world0) = (Ok tt, 0) /\
  Sample.getxattr tt Sample.file2 USER_STATUS 0 = (Ok NEARLINE, 1) /\
  check_status nat unit Sample.creat_context Sample.getxattr
    true Sample.file2 false Sample.world0 =
  (Raise (UnboundLocalError (lit "color")),
   mkWorld [EvCreatContext; EvGetxattr Sample.file2 USER_STATUS] 1).
Proof.
  split; [reflexivity|]. split; [reflexivity|].
  apply (proj2 (check_status_quiet_never_returns nat unit
                  Sample.creat_context Sample.getxattr
                  Sample.file2 Sample.world0)
           tt 0 NEARLINE 1); reflexivity.
Defined.

Lemma sample_creat_ok :
  forall b, exists c b', Sample.creat_context b = (Ok c, b').
Proof. intros b. exists tt, b. reflexivity. Qed.

Lemma sample_getxattr_ok :
  forall c surl b, exists status b',
    Sample.getxattr c surl USER_STATUS b = (Ok status, b').
Proof.
  intros c surl b. unfold Sample.getxattr.
  repeat (destruct (PyStr.eqb surl _); [eauto|]). eauto.
Qed.

(** C5. With a backend that answers and the verbose flag at its default,
    [check_status_list] looks up [user.status] once for each of the K
    URLs, in their order, and pauses for one second once per batch of 100,
    [batches K] times, which is K/100 rounded up; the pause after the last
    batch is made as well: the run ends with it. *)
Theorem check_status_list_queries_pauses (B Ctx : Type)
    (creat : B -> outcome Ctx * B)
    (getx : Ctx -> str -> str -> B -> outcome str * B)
    (creat_ok : forall b, exists c b', creat b = (Ok c, b'))
    (getxattr_ok : forall c surl b, exists status b',
        getx c surl USER_STATUS b = (Ok status, b'))
    (surls : list str) (w : world B) :
  exists results tr w',
    check_status_list B Ctx creat getx true surls true w = (Ok results, w') /\
    trace w' = trace w ++ tr /\
    queries tr = map (fun u => (u, USER_STATUS)) surls /\
    length (queries tr) = length surls /\
    pauses tr = repeat 1 (batches (length surls)) /\
    length (pauses tr) = batches (length surls) /\
    length surls <= 100 * batches (length surls) < length surls + 100 /\
    (surls <> [] -> exists tr0, tr = tr0 ++ [EvSleep 1]).
Proof.
  destruct (check_status_list_run B Ctx creat getx creat_ok getxattr_ok surls w)
    as (results & tr & b' & Hrun & _ & Hq & Hp & Hlast).
  exists results, tr, (mkWorld (trace w ++ tr) b').
  pose proof (batches_ceiling (length surls)) as [Hc1 Hc2].
  repeat split; auto.
  - rewrite Hq. apply length_map.
  - rewrite Hp. apply repeat_length.
Qed.

Lemma check_status_list_queries_pauses_witness :
  exists results tr w',
    check_status_list nat unit Sample.creat_context Sample.getxattr
      true [Sample.file1; Sample.file2; Sample.file3] true Sample.world0 =
      (Ok results, w') /\
    trace w' = trace Sample.world0 ++ tr /\
    queries tr = map (fun u => (u, USER_STATUS))
                   [Sample.file1; Sample.file2; Sample.file3] /\
    length (queries tr) = 3 /\
    pauses tr = repeat 1 (batches 3) /\
    length (pauses tr) = batches 3 /\
    3 <= 100 * batches 3 < 3 + 100 /\
    ([Sample.file1; Sample.file2; Sample.file3] <> [] ->
     exists tr0, tr = tr0 ++ [EvSleep 1]).
Proof.
  exact (check_status_list_queries_pauses nat unit
           Sample.creat_context Sample.getxattr
           sample_creat_ok sample_getxattr_ok
           [Sample.file1; Sample.file2; Sample.file3] Sample.world0).
Defined.

(** C8. With a backend that answers and the verbose flag at its default,
    [check_status_list] returns one pair for each input URL, in the order
    of the input, and the first component of the i-th pair is the i-th
    URL. *)
Theorem check_status_list_results (B Ctx : Type)
    (creat : B -> outcome Ctx * B)
    (getx : Ctx -> str -> str -> B -> outcome str * B)
    (creat_ok : forall b, exists c b', creat b = (Ok c, b'))
    (getxattr_ok : forall c surl b, exists status b',
        getx c surl USER_STATUS b = (Ok status, b'))
    (surls : list str) (w : world B) :
  exists results w',
    check_status_list B Ctx creat getx true surls true w = (Ok results, w') /\
    length results = length surls /\
    map fst results = surls /\
    (forall i u, nth_error surls i = Some u ->
                 exists status, nth_error results i = Some (u, status)).
Proof.
  destruct (check_status_list_run B Ctx creat getx creat_ok getxattr_ok surls w)
    as (results & tr & b' & Hrun & Hfst & _).
  exists results, (mkWorld (trace w ++ tr) b').
  repeat split; auto.
  - rewrite <- Hfst. symmetry. apply length_map.
  - intros i u Hi. rewrite <- Hfst, nth_error_map in Hi.
    destruct (nth_error results i) as [[u' status]|]; [|discriminate].
    injection Hi as ->. exists status. reflexivity.
Qed.

Lemma check_status_list_results_witness :
  exists results w',
    check_status_list nat unit Sample.creat_context Sample.getxattr
      true [Sample.file1; Sample.file2] true Sample.world0 = (Ok results, w') /\
    length results = 2 /\
    map fst results = [Sample.file1; Sample.file2] /\
    (forall i u, nth_error [Sample.file1; Sample.file2] i = Some u ->
                 exists status, nth_error results i = Some (u, status)).
Proof.
  exact (check_status_list_results nat unit
           Sample.creat_context Sample.getxattr
           sample_creat_ok sample_getxattr_ok
           [Sample.file1; Sample.file2] Sample.world0).
Defined.

(** ** percent_staged: the tallies *)

Lemma counter_get_incr (c : gmap str nat) (k k' : str) :
  counter_get (counter_incr c k) k' =
  counter_get c k' + (if decide (k = k') then 1 else 0).
Proof.
  unfold counter_get, counter_incr. rewrite lookup_insert.
  destruct (decide (k = k')) as [->|Hne]; cbn; lia.
Qed.

Lemma counter_get_fold (results : list (str * str)) (k : str) :
  forall c : gmap str nat,
  counter_get (fold_left counter_incr (map snd results) c) k =
  counter_get c k + count_status k results.
Proof.
  unfold count_status.
  induction results as [|[u st] results IH]; intros c;
    cbn [map fold_left List.filter snd].
  - cbn. lia.
  - rewrite IH, counter_get_incr.
    destruct (decide (st = k)) as [->|Hne].
    + rewrite str_eqb_refl. cbn [length]. lia.
    + destruct (PyStr.eqb st k) eqn:E; [apply eqb_eq in E; contradiction|]. lia.
Qed.

(** Looking a status up in the [Counter] of the results gives the number
    of results with exactly that status. *)
Lemma counter_get_Counter (results : list (str * str)) (k : str) :
  counter_get (Counter (map snd results)) k = count_status k results.
Proof.
  unfold Counter. rewrite counter_get_fold. reflexivity.
Qed.

Lemma tally_counts (results : list (str * str)) :
  total_files (percent_staged_tally results) = length results /\
  staged (percent_staged_tally results) =
    count_status ONLINE_AND_NEARLINE results + count_status ONLINE results /\
  unstaged (percent_staged_tally results) = count_status NEARLINE_KEY results.
Proof.
  unfold percent_staged_tally. cbn [total_files staged unstaged].
  rewrite !counter_get_Counter. auto.
Qed.

(** C6 (the code departs from it). A result whose status is [NEARLINE]
    is not counted in the tape-only tally, which is kept under the key
    [NEARLINE ] with a space at its end: one such result gives the tally 0,
    and a status that is the key itself, which is not a status of the
    backend, gives 1.  The disk-resident tally counts [ONLINE] and
    [ONLINE_AND_NEARLINE] and nothing else. *)
Theorem nearline_not_tallied :
  unstaged (percent_staged_tally [(Sample.file2, NEARLINE)]) = 0 /\
  unstaged (percent_staged_tally [(Sample.file2, NEARLINE_KEY)]) = 1 /\
  staged (percent_staged_tally Sample.results3) = 2 /\
  forall results,
    unstaged (percent_staged_tally results) = count_status NEARLINE_KEY results /\
    staged (percent_staged_tally results) =
      count_status ONLINE_AND_NEARLINE results + count_status ONLINE results.
Proof.
  split; [reflexivity|]. split; [reflexivity|]. split; [reflexivity|].
  intros results. destruct (tally_counts results) as (_ & Hs & Hu). auto.
Qed.

(** ** The script without its backend, and the empty input *)

Section ScriptFacts.

Variable py : python.
Variables (B Ctx : Type).
Variable gfal2_creat_context : B -> outcome Ctx * B.
Variable gfal2_getxattr : Ctx -> str -> str -> B -> outcome str * B.
Variable read_file : str -> option str.
Variable float_str : PyFloat.float -> str.

Lemma check_status_list_nil (gfal2 verbose : bool) (w : world B) :
  check_status_list B Ctx gfal2_creat_context gfal2_getxattr gfal2 [] verbose w
  = (Ok [], w).
Proof.
  unfold check_status_list. rewrite check_loop_eq. reflexivity.
Qed.

Lemma check_status_list_unbound (u : str) (surls : list str) (verbose : bool)
    (w : world B) :
  check_status_list B Ctx gfal2_creat_context gfal2_getxattr
    false (u :: surls) verbose w
  = (Raise (NameError (lit "gfal2")), w).
Proof.
  unfold check_status_list. rewrite check_loop_eq.
  destruct (lt_dec 0 (length (u :: surls))) as [_|Hn]; [|cbn in Hn; lia].
  unfold slice, nf. cbn [length Nat.add Nat.min Nat.sub skipn firstn check_batch].
  reflexivity.
Qed.

Lemma percent_staged_nil (w : world B) :
  percent_staged B float_str [] w = (Raise ZeroDivisionError, w).
Proof. reflexivity. Qed.

(** The run when [gfal2] cannot be imported. *)
Lemma script_unbound (argv : list str) (w : world B) :
  script py B Ctx gfal2_creat_context gfal2_getxattr read_file float_str
    false argv w =
  let w1 := mkWorld (trace w ++ [EvPrint IMPORT_NOTICE]) (backend w) in
  match nth_error argv 1 with
  | None => (Raise IndexError, w1)
  | Some files =>
      let w2 := mkWorld (trace w ++ [EvPrint IMPORT_NOTICE; EvOpen files])
                  (backend w) in
      match read_file files with
      | None => (Raise (IOError files), w2)
      | Some text =>
          match convert_text py text with
          | Raise e => (Raise e, w2)
          | Ok [] => (Raise ZeroDivisionError, w2)
          | Ok (_ :: _) => (Raise (NameError (lit "gfal2")), w2)
          end
      end
  end.
Proof.
  cbv [script bind import_gfal2 print emit ret main lift convert_to_surl
       open_read raise].
  cbn [trace backend].
  destruct (nth_error argv 1) as [files|]; [|reflexivity].
  rewrite <- app_assoc. cbn [app].
  destruct (read_file files) as [text|]; [|reflexivity].
  destruct (convert_text py text) as [[|u surls]|e]; [| |reflexivity].
  - rewrite check_status_list_nil. reflexivity.
  - rewrite check_status_list_unbound. reflexivity.
Qed.

Lemma check_status_list_creat_fails (u : str) (surls : list str)
    (verbose : bool) (w : world B) (e : exn) (b' : B) :
  gfal2_creat_context (backend w) = (Raise e, b') ->
  check_status_list B Ctx gfal2_creat_context gfal2_getxattr
    true (u :: surls) verbose w
  = (Raise e, mkWorld (trace w ++ [EvCreatContext]) b').
Proof.
  intros Hc. unfold check_status_list. rewrite check_loop_eq.
  destruct (lt_dec 0 (length (u :: surls))) as [_|Hn]; [|cbn in Hn; lia].
  unfold slice, nf. cbn [length Nat.add Nat.min Nat.sub skipn firstn check_batch].
  cbv [bind check_status global_gfal2 ret creat_context emit].
  cbn [trace backend]. rewrite Hc. reflexivity.
Qed.

(** The run when [gfal2] is there and a context cannot be created. *)
Lemma script_creat_fails (argv : list str) (w : world B)
    (files text surl : str) (surls : list str) (e : exn) (b' : B) :
  nth_error argv 1 = Some files ->
  read_file files = Some text ->
  convert_text py text = Ok (surl :: surls) ->
  gfal2_creat_context (backend w) = (Raise e, b') ->
  script py B Ctx gfal2_creat_context gfal2_getxattr read_file float_str
    true argv w =
  (Raise e, mkWorld (trace w ++ [EvOpen files; EvCreatContext]) b').
Proof.
  intros Hargv Hread Hconv Hc.
  cbv [script bind import_gfal2 ret main lift convert_to_surl open_read emit
       raise].
  cbn [trace backend]. rewrite Hargv, Hread, Hconv.
  rewrite (check_status_list_creat_fails surl surls true _ e b') by exact Hc.
  cbn [trace]. rewrite <- app_assoc. reflexivity.
Qed.

(** The run when [gfal2] is there and the file holds no URL. *)
Lemma script_nothing_to_check (argv : list str) (w : world B)
    (files text : str) :
  nth_error argv 1 = Some files ->
  read_file files = Some text ->
  convert_text py text = Ok [] ->
  script py B Ctx gfal2_creat_context gfal2_getxattr read_file float_str
    true argv w =
  (Raise ZeroDivisionError, mkWorld (trace w ++ [EvOpen files]) (backend w)).
Proof.
  intros Hargv Hread Hconv.
  cbv [script bind import_gfal2 ret main lift convert_to_surl open_read emit
       raise].
  cbn [trace backend]. rewrite Hargv, Hread, Hconv.
  rewrite check_status_list_nil. reflexivity.
Qed.

End ScriptFacts.

(** C3, as stated, fails: on the empty sequence the aggregator ends with
    the division by zero of the floats, and with no other error. *)
Lemma percent_staged_empty_sample :
  percent_staged nat Sample.float_str [] Sample.world0 =
    (Raise ZeroDivisionError, Sample.world0) /\
  ~ (exists e w', e <> ZeroDivisionError /\
       percent_staged nat Sample.float_str [] Sample.world0 = (Raise e, w')).
Proof.
  split; [reflexivity|].
  intros (e & w' & Hne & H). rewrite percent_staged_nil in H.
  injection H as He _. apply Hne. symmetry. exact He.
Qed.

(** C3, amended. On the empty sequence of results [percent_staged] ends
    with [ZeroDivisionError], raised by the division of the floats;
    nothing is written to the console and no percentage is returned. *)
Theorem percent_staged_empty (B : Type) (float_str : PyFloat.float -> str)
    (w : world B) :
  percent_staged B float_str [] w = (Raise ZeroDivisionError, w).
Proof. apply percent_staged_nil. Qed.

(** C4, as stated, fails: without [gfal2] the import guard does not end
    the run; the file is opened and read, and the run ends in the first
    call of [check_status], or in the aggregator when the file holds no
    URL. *)
Lemma script_without_gfal2_sample :
  import_gfal2 nat false Sample.world0 =
    (Ok false, mkWorld [EvPrint IMPORT_NOTICE] 0) /\
  (forall py : python,
      script py nat unit Sample.creat_context Sample.getxattr Sample.read_file
        Sample.float_str false [lit "state.py"; Sample.files] Sample.world0 =
        (Raise (NameError (lit "gfal2")),
         mkWorld [EvPrint IMPORT_NOTICE; EvOpen Sample.files] 0)) /\
  (forall py : python,
      script py nat unit Sample.creat_context Sample.getxattr Sample.read_file
        Sample.float_str false [lit "state.py"; lit "empty"] Sample.world0 =
        (Raise ZeroDivisionError,
         mkWorld [EvPrint IMPORT_NOTICE; EvOpen (lit "empty")] 0)).
Proof.
  split; [reflexivity|].
  split; intros []; rewrite script_unbound; reflexivity.
Qed.

(** C4, amended. When [gfal2] cannot be imported the run does not end at
    the import: the guard writes its notice and the run goes on, opens
    the input file and converts the URLs.  With a URL to check it ends
    with [NameError] for [gfal2] in the first call of [check_status],
    before a context is created; with none it ends in the aggregator with
    [ZeroDivisionError].  In no case does the run return, create a
    context or look an attribute up.  When [gfal2] is there and the
    context cannot be created, a run with a URL to check ends likewise in
    the first call of [check_status], after the file was read and before
    any lookup; a run with no URL never asks for a context and ends in
    the aggregator with [ZeroDivisionError].  The URLs are the pieces of
    [f.read().split()] under the interpreter that runs the script. *)
Theorem script_without_gfal2 (py : python) (B Ctx : Type)
    (creat : B -> outcome Ctx * B)
    (getx : Ctx -> str -> str -> B -> outcome str * B)
    (read_file : str -> option str) (float_str : PyFloat.float -> str)
    (argv : list str) (w : world B) :
  import_gfal2 B false w =
    (Ok false, mkWorld (trace w ++ [EvPrint IMPORT_NOTICE]) (backend w)) /\
  (forall files text surl surls,
      nth_error argv 1 = Some files ->
      read_file files = Some text ->
      convert_text py text = Ok (surl :: surls) ->
      check_status B Ctx creat getx false surl true
        (mkWorld (trace w ++ [EvPrint IMPORT_NOTICE; EvOpen files]) (backend w)) =
        (Raise (NameError (lit "gfal2")),
         mkWorld (trace w ++ [EvPrint IMPORT_NOTICE; EvOpen files]) (backend w)) /\
      script py B Ctx creat getx read_file float_str false argv w =
        (Raise (NameError (lit "gfal2")),
         mkWorld (trace w ++ [EvPrint IMPORT_NOTICE; EvOpen files]) (backend w))) /\
  (forall files text,
      nth_error argv 1 = Some files ->
      read_file files = Some text ->
      convert_text py text = Ok [] ->
      script py B Ctx creat getx read_file float_str false argv w =
        (Raise ZeroDivisionError,
         mkWorld (trace w ++ [EvPrint IMPORT_NOTICE; EvOpen files]) (backend w))) /\
  (forall r w',
      script py B Ctx creat getx read_file float_str false argv w = (r, w') ->
      (exists e, r = Raise e) /\
      backend w' = backend w /\
      exists tr, trace w' = trace w ++ tr /\
                 queries tr = [] /\ ~ In EvCreatContext tr) /\
  (forall files text surl surls e b',
      nth_error argv 1 = Some files ->
      read_file files = Some text ->
      convert_text py text = Ok (surl :: surls) ->
      creat (backend w) = (Raise e, b') ->
      script py B Ctx creat getx read_file float_str true argv w =
        (Raise e, mkWorld (trace w ++ [EvOpen files; EvCreatContext]) b')) /\
  (forall files text,
      nth_error argv 1 = Some files ->
      read_file files = Some text ->
      convert_text py text = Ok [] ->
      script py B Ctx creat getx read_file float_str true argv w =
        (Raise ZeroDivisionError,
         mkWorld (trace w ++ [EvOpen files]) (backend w))).
Proof.
  split; [reflexivity|]. split; [|split; [|split; [|split]]].
  4: { intros files text surl surls e b'. apply script_creat_fails. }
  4: { intros files text. apply script_nothing_to_check. }
  - intros files text surl surls Hargv Hread Hconv. split; [reflexivity|].
    rewrite script_unbound, Hargv. cbv zeta. rewrite Hread, Hconv. reflexivity.
  - intros files text Hargv Hread Hconv.
    rewrite script_unbound, Hargv. cbv zeta. rewrite Hread, Hconv. reflexivity.
  - intros r w' Hrun. rewrite script_unbound in Hrun. cbv zeta in Hrun.
    assert (Hnot1 : ~ In EvCreatContext [EvPrint IMPORT_NOTICE])
      by (cbn; intuition discriminate).
    assert (Hnot2 : forall f, ~ In EvCreatContext [EvPrint IMPORT_NOTICE; EvOpen f])
      by (intros f; cbn; intuition discriminate).
    destruct (nth_error argv 1) as [files|].
    + destruct (read_file files) as [text|].
      * destruct (convert_text py text) as [[|u surls]|e];
          injection Hrun as <- <-; cbn [trace backend];
          (split; [eauto|]); (split; [reflexivity|]);
          exists [EvPrint IMPORT_NOTICE; EvOpen files]; auto.
      * injection Hrun as <- <-; cbn [trace backend].
        split; [eauto|]. split; [reflexivity|].
        exists [EvPrint IMPORT_NOTICE; EvOpen files]; auto.
    + injection Hrun as <- <-; cbn [trace backend].
      split; [eauto|]. split; [reflexivity|].
      exists [EvPrint IMPORT_NOTICE]; auto.
Qed.

Lemma script_without_gfal2_witness :
  (nth_error [lit "state.py"; Sample.files] 1 = Some Sample.files /\
   Sample.read_file Sample.files =
     Some (lit "/pnfs/a/file1 gsiftp://host/pnfs/b/file2") /\
   convert_text Python3 (lit "/pnfs/a/file1 gsiftp://host/pnfs/b/file2") =
     Ok [Sample.file1; Sample.file2] /\
   script Python3 nat unit Sample.creat_context Sample.getxattr
     Sample.read_file Sample.float_str false [lit "state.py"; Sample.files]
     Sample.world0 =
     (Raise (NameError (lit "gfal2")),
      mkWorld [EvPrint IMPORT_NOTICE; EvOpen Sample.files] 0)) /\
  (nth_error [lit "state.py"; Spaces.blank] 1 = Some Spaces.blank /\
   Spaces.read_file Spaces.blank = Some [Spaces.nbsp] /\
   convert_text Python3 [Spaces.nbsp] = Ok [] /\
   script Python3 nat unit Sample.creat_context Sample.getxattr
     Spaces.read_file Sample.float_str false [lit "state.py"; Spaces.blank]
     Sample.world0 =
     (Raise ZeroDivisionError,
      mkWorld [EvPrint IMPORT_NOTICE; EvOpen Spaces.blank] 0)) /\
  (nth_error [lit "state.py"; Spaces.blank] 1 = Some Spaces.blank /\
   Spaces.read_file Spaces.blank = Some [Spaces.nbsp] /\
   convert_text Python2 [Spaces.nbsp] = Ok [SRM] /\
   script Python2 nat unit Sample.creat_context Sample.getxattr
     Spaces.read_file Sample.float_str false [lit "state.py"; Spaces.blank]
     Sample.world0 =
     (Raise (NameError (lit "gfal2")),
      mkWorld [EvPrint IMPORT_NOTICE; EvOpen Spaces.blank] 0)) /\
  (Faulty.creat_context 0 = (Raise Faulty.no_backend, 0) /\
   script Python3 nat unit Faulty.creat_context Sample.getxattr
     Sample.read_file Sample.float_str true [lit "state.py"; Sample.files]
     Sample.world0 =
     (Raise Faulty.no_backend,
      mkWorld [EvOpen Sample.files; EvCreatContext] 0)) /\
  (Sample.read_file (lit "empty") = Some [] /\
   script Python3 nat unit Faulty.creat_context Sample.getxattr
     Sample.read_file Sample.float_str true [lit "state.py"; lit "empty"]
     Sample.world0 =
     (Raise ZeroDivisionError, mkWorld [EvOpen (lit "empty")] 0)).
Proof.
  split; [|split; [|split; [|split]]].
  - split; [reflexivity|]. split; [reflexivity|]. split; [reflexivity|].
    apply (proj1 (proj2 (script_without_gfal2 Python3 nat unit
                           Sample.creat_context Sample.getxattr
                           Sample.read_file Sample.float_str
                           [lit "state.py"; Sample.files] Sample.world0))
             Sample.files (lit "/pnfs/a/file1 gsiftp://host/pnfs/b/file2")
             Sample.file1 [Sample.file2]); reflexivity.
  - split; [reflexivity|]. split; [reflexivity|]. split; [reflexivity|].
    apply (proj1 (proj2 (proj2 (script_without_gfal2 Python3 nat unit
                                  Sample.creat_context Sample.getxattr
                                  Spaces.read_file Sample.float_str
                                  [lit "state.py"; Spaces.blank]
                                  Sample.world0)))
             Spaces.blank [Spaces.nbsp]); reflexivity.
  - split; [reflexivity|]. split; [reflexivity|]. split; [reflexivity|].
    apply (proj1 (proj2 (script_without_gfal2 Python2 nat unit
                           Sample.creat_context Sample.getxattr
                           Spaces.read_file Sample.float_str
                           [lit "state.py"; Spaces.blank] Sample.world0))
             Spaces.blank [Spaces.nbsp] SRM []); reflexivity.
  - split; [reflexivity|].
    apply (proj1 (proj2 (proj2 (proj2 (proj2
             (script_without_gfal2 Python3 nat unit
                Faulty.creat_context Sample.getxattr
                Sample.read_file Sample.float_str
                [lit "state.py"; Sample.files] Sample.world0)))))
             Sample.files (lit "/pnfs/a/file1 gsiftp://host/pnfs/b/file2")
             Sample.file1 [Sample.file2] Faulty.no_backend 0); reflexivity.
  - split; [reflexivity|].
    apply (proj2 (proj2 (proj2 (proj2 (proj2
             (script_without_gfal2 Python3 nat unit
                Faulty.creat_context Sample.getxattr
                Sample.read_file Sample.float_str
                [lit "state.py"; lit "empty"] Sample.world0)))))
             (lit "empty") []); reflexivity.
Defined.

(** ** Floats: rounding and bounds *)

Section RoundingFacts.

Local Open Scope Z_scope.

Variables prec emax : Z.

Lemma digits2_pos_log2 (p : positive) :
  Zpos (digits2_pos p) = Z.log2 (Zpos p) + 1.
Proof.
  assert (H : forall q, digits2_pos q = Pos.size q)
    by (induction q; simpl; congruence).
  destruct p; simpl; rewrite ?H; lia.
Qed.

Lemma Zdigits2_log2 (a : Z) : 0 < a -> Zdigits2 a = Z.log2 a + 1.
Proof.
  destruct a; try lia. intros _. apply digits2_pos_log2.
Qed.

Lemma Zdigits2_nonneg (a : Z) : 0 <= Zdigits2 a.
Proof. destruct a; simpl; lia. Qed.

(** [a < 2^(Zdigits2 a)], and [2^(Zdigits2 a - 1) <= a] for a positive [a]. *)
Lemma Zdigits2_upper (a : Z) : 0 <= a -> a < 2 ^ Zdigits2 a.
Proof.
  intros Ha. destruct (Z.eq_dec a 0) as [->|Hne]; [reflexivity|].
  rewrite Zdigits2_log2 by lia.
  pose proof (Z.log2_spec a ltac:(lia)) as [_ H].
  replace (Z.log2 a + 1) with (Z.succ (Z.log2 a)) by lia. exact H.
Qed.

Lemma Zdigits2_lower (a : Z) : 0 < a -> 2 ^ (Zdigits2 a - 1) <= a.
Proof.
  intros Ha. rewrite Zdigits2_log2 by lia.
  replace (Z.log2 a + 1 - 1) with (Z.log2 a) by lia.
  apply Z.log2_spec. lia.
Qed.

(** A number below [2^k] has at most [k] digits. *)
Lemma Zdigits2_le_of_lt_pow (a k : Z) : 0 <= a -> 0 <= k -> a < 2 ^ k -> Zdigits2 a <= k.
Proof.
  intros Ha Hk Hlt. destruct (Z.eq_dec a 0) as [->|Hne]; [simpl; lia|].
  rewrite Zdigits2_log2 by lia.
  assert (Z.log2 a < k) by (apply Z.log2_lt_pow2; lia). lia.
Qed.

Lemma Zdigits2_mono (a b : Z) : 0 <= a <= b -> Zdigits2 a <= Zdigits2 b.
Proof.
  intros [Ha Hab]. apply Zdigits2_le_of_lt_pow; [lia | apply Zdigits2_nonneg |].
  pose proof (Zdigits2_upper b ltac:(lia)). lia.
Qed.

(** [a <= t * 2^k] bounds the digits of [a] by those of [t] plus [k]. *)
Lemma Zdigits2_le_scaled (a t k : Z) :
  0 <= a -> 0 < t -> 0 <= k -> a <= t * 2 ^ k -> Zdigits2 a <= Zdigits2 t + k.
Proof.
  intros Ha Ht Hk Hle.
  destruct (Z.eq_dec a 0) as [->|Hne].
  - pose proof (Zdigits2_nonneg t). simpl. lia.
  - pose proof (Zdigits2_mono a (t * 2 ^ k) ltac:(lia)) as Hm.
    rewrite (Zdigits2_log2 (t * 2 ^ k)) in Hm by (apply Z.mul_pos_pos; [lia | apply Z.pow_pos_nonneg; lia]).
    rewrite Z.log2_mul_pow2 in Hm by lia.
    rewrite (Zdigits2_log2 t) by lia. lia.
Qed.

(** *** Shifting a mantissa to the right *)

Lemma iter_pos_nat {A} (f : A -> A) (p : positive) (x : A) :
  SpecFloat.iter_pos f p x = Nat.iter (Pos.to_nat p) f x.
Proof.
  revert x. induction p as [p IH|p IH|]; intros x; cbn [SpecFloat.iter_pos].
  - rewrite !IH, Pos2Nat.inj_xI.
    replace (S (2 * Pos.to_nat p))%nat
      with (Pos.to_nat p + (Pos.to_nat p + 1))%nat by lia.
    rewrite !Nat.iter_add. reflexivity.
  - rewrite !IH, Pos2Nat.inj_xO.
    replace (2 * Pos.to_nat p)%nat with (Pos.to_nat p + Pos.to_nat p)%nat by lia.
    rewrite Nat.iter_add. reflexivity.
  - reflexivity.
Qed.

Lemma shr_1_spec (m : Z) (r s : bool) :
  0 <= m ->
  shr_1 (Build_shr_record m r s) = Build_shr_record (m / 2) (Z.odd m) (r || s).
Proof.
  intros Hm. destruct m as [|p|p]; [reflexivity| |lia].
  destruct p as [p|p|]; cbn [shr_1 Z.odd]; f_equal.
  - rewrite Pos2Z.inj_xI. apply (Z.div_unique _ _ _ 1); lia.
  - rewrite Pos2Z.inj_xO. apply (Z.div_unique _ _ _ 0); lia.
Qed.

(** The last bit shifted out and whether a lower one was set. *)
Lemma mod_pow2_succ (m : Z) (n : Z) :
  0 <= m -> 0 <= n ->
  m mod 2 ^ (n + 1) = m mod 2 ^ n + 2 ^ n * ((m / 2 ^ n) mod 2).
Proof.
  intros Hm Hn.
  assert (HP : 0 < 2 ^ n) by (apply Z.pow_pos_nonneg; lia).
  rewrite Z.pow_add_r, Z.pow_1_r by lia.
  pose proof (Z.div_mod m (2 ^ n) ltac:(lia)) as E1.
  pose proof (Z.mod_pos_bound m (2 ^ n) HP) as B1.
  pose proof (Z.div_mod (m / 2 ^ n) 2 ltac:(lia)) as E2.
  pose proof (Z.mod_pos_bound (m / 2 ^ n) 2 ltac:(lia)) as B2.
  symmetry. apply (Z.mod_unique _ _ (m / 2 ^ n / 2)); [left; nia | nia].
Qed.

Lemma shr_iter_spec (n : nat) (m : Z) (r s : bool) :
  0 <= m ->
  Nat.iter (S n) shr_1 (Build_shr_record m r s) =
  Build_shr_record (m / 2 ^ Z.of_nat (S n))
    (Z.odd (m / 2 ^ Z.of_nat n))
    (negb (m mod 2 ^ Z.of_nat n =? 0) || (r || s)).
Proof.
  intros Hm. induction n as [|n IH].
  - cbn [Nat.iter]. rewrite shr_1_spec by assumption.
    change (2 ^ Z.of_nat 1) with 2. change (2 ^ Z.of_nat 0) with 1.
    rewrite Z.div_1_r, Z.mod_1_r. reflexivity.
  - rewrite Nat.iter_succ, IH.
    assert (HP : 0 < 2 ^ Z.of_nat n) by (apply Z.pow_pos_nonneg; lia).
    assert (HP1 : 0 < 2 ^ Z.of_nat (S n)) by (apply Z.pow_pos_nonneg; lia).
    rewrite shr_1_spec by (apply Z.div_pos; lia).
    f_equal.
    + rewrite Z.div_div by lia.
      rewrite (Nat2Z.inj_succ (S n)), Z.pow_succ_r by lia. f_equal. lia.
    + rewrite (Nat2Z.inj_succ n). unfold Z.succ.
      rewrite (mod_pow2_succ m (Z.of_nat n)) by lia.
      pose proof (Z.mod_pos_bound m (2 ^ Z.of_nat n) HP) as B1.
      rewrite (Zmod_odd (m / 2 ^ Z.of_nat n)).
      destruct (Z.odd (m / 2 ^ Z.of_nat n));
        destruct (Z.eqb_spec (m mod 2 ^ Z.of_nat n) 0) as [E|E];
        match goal with
        | |- context [?x =? 0] => destruct (Z.eqb_spec x 0) as [E'|E']
        end;
        destruct r, s; cbn; try reflexivity; exfalso; lia.
Qed.

Lemma shr_pos (m e : Z) (l : location) (p : positive) :
  0 <= m ->
  exists r s,
    shr (shr_record_of_loc m l) e (Zpos p) =
      (Build_shr_record (m / 2 ^ Zpos p) r s, e + Zpos p) /\
    r = Z.odd (m / 2 ^ (Zpos p - 1)) /\
    s = negb (m mod 2 ^ (Zpos p - 1) =? 0)
        || (shr_r (shr_record_of_loc m l) || shr_s (shr_record_of_loc m l)).
Proof.
  intros Hm. unfold shr. rewrite iter_pos_nat.
  destruct (Pos2Nat.is_succ p) as [n Hn]. rewrite Hn.
  assert (Hp : Zpos p = Z.of_nat (S n)) by lia.
  assert (Hp1 : Zpos p - 1 = Z.of_nat n) by lia.
  rewrite Hp1, Hp.
  assert (Hrec : shr_record_of_loc m l =
                 Build_shr_record m (shr_r (shr_record_of_loc m l))
                   (shr_s (shr_record_of_loc m l)))
    by (destruct l as [|[]]; reflexivity).
  pose proof (shr_iter_spec n m (shr_r (shr_record_of_loc m l))
                (shr_s (shr_record_of_loc m l)) Hm) as Hit.
  rewrite <- Hrec in Hit. rewrite Hit. eauto.
Qed.

Lemma shr_record_of_loc_m (m : Z) (l : location) :
  shr_m (shr_record_of_loc m l) = m.
Proof. destruct l as [|[]]; reflexivity. Qed.

Lemma loc_of_shr_record_of_loc (m : Z) (l : location) :
  loc_of_shr_record (shr_record_of_loc m l) = l.
Proof. destruct l as [|[]]; reflexivity. Qed.

Lemma loc_exact_bits (mrs : shr_record) :
  loc_of_shr_record mrs = loc_Exact <-> shr_r mrs = false /\ shr_s mrs = false.
Proof.
  destruct mrs as [m [] []]; cbn; split; intros H; try discriminate;
    try (destruct H; discriminate); auto.
Qed.

(** *** Rounding stays below a bound that lies on the grid

    The bound is [t * 2^g]; a mantissa [m] at exponent [e <= g] is below
    it when [m <= t * 2^(g - e)]. *)

Lemma round_nearest_even_below (m : Z) (l : location) (k : Z) :
  below m l k -> round_nearest_even m l <= k.
Proof.
  intros [Hle Hlt]. destruct l as [|[]]; cbn; try lia.
  - assert (m < k) by (apply Hlt; discriminate). destruct (Z.even m); lia.
  - assert (m < k) by (apply Hlt; discriminate). lia.
Qed.

Lemma round_nearest_even_nonneg (m : Z) (l : location) :
  0 <= m -> 0 <= round_nearest_even m l.
Proof.
  intros Hm. destruct l as [|[]]; cbn; try lia. destruct (Z.even m); lia.
Qed.

Lemma shr_fexp_below (m e : Z) (l : location) (t g : Z) :
  0 <= m -> 0 <= t -> e <= g ->
  fexp prec emax (Zdigits2 m + e) <= g ->
  below m l (t * 2 ^ (g - e)) ->
  forall mrs' e', shr_fexp prec emax m e l = (mrs', e') ->
  0 <= shr_m mrs' /\ e <= e' <= g /\
  below (shr_m mrs') (loc_of_shr_record mrs') (t * 2 ^ (g - e')).
Proof.
  intros Hm Ht Heg Hfexp [Hle Hlt] mrs' e'. unfold shr_fexp.
  destruct (fexp prec emax (Zdigits2 m + e) - e) as [|p|p] eqn:Ep.
  - cbn [shr]. intros [= <- <-].
    rewrite shr_record_of_loc_m, loc_of_shr_record_of_loc.
    repeat split; auto; lia.
  - destruct (shr_pos m e l p Hm) as (r & s & -> & Hr & Hs).
    intros [= <- <-]. cbn [shr_m].
    assert (HP : 0 < 2 ^ Zpos p) by (apply Z.pow_pos_nonneg; lia).
    assert (Hk : t * 2 ^ (g - e) = t * 2 ^ (g - (e + Zpos p)) * 2 ^ Zpos p).
    { rewrite <- Z.mul_assoc, <- Z.pow_add_r by lia. do 2 f_equal. lia. }
    set (k' := t * 2 ^ (g - (e + Zpos p))) in *.
    assert (Hdiv : m / 2 ^ Zpos p <= k').
    { apply Z.div_le_upper_bound; [lia|]. rewrite Z.mul_comm. lia. }
    split; [apply Z.div_pos; lia|]. split; [lia|]. split; [exact Hdiv|].
    intros Hinex.
    destruct (Z.eq_dec (m / 2 ^ Zpos p) k') as [Heq|Hne]; [|lia].
    exfalso. apply Hinex.
    assert (Hmk : m = k' * 2 ^ Zpos p).
    { pose proof (Z.mul_div_le m (2 ^ Zpos p) HP). nia. }
    assert (Hl : l = loc_Exact).
    { destruct l as [|c]; [reflexivity|].
      assert (m < t * 2 ^ (g - e)) by (apply Hlt; discriminate). lia. }
    subst l. apply loc_exact_bits. cbn [shr_r shr_s shr_record_of_loc] in *.
    subst r s.
    assert (Hsplit : 2 ^ Zpos p = 2 * 2 ^ (Zpos p - 1)).
    { rewrite <- Z.pow_succ_r by lia. f_equal. lia. }
    assert (HP1 : 0 < 2 ^ (Zpos p - 1)) by (apply Z.pow_pos_nonneg; lia).
    assert (Hm2 : m = (2 * k') * 2 ^ (Zpos p - 1)) by lia.
    rewrite Hm2 at 1 2. rewrite Z.div_mul, Z.mod_mul by lia.
    rewrite Z.odd_mul. cbn. auto.
  - cbn [shr]. intros [= <- <-].
    rewrite shr_record_of_loc_m, loc_of_shr_record_of_loc.
    repeat split; auto; lia.
Qed.

Lemma fexp_le (d g : Z) :
  d <= prec + g -> emin prec emax <= g -> fexp prec emax d <= g.
Proof. unfold fexp. lia. Qed.

(** The result of [binary_round_aux] is a zero or a finite number, and it
    stays below the bound [t * 2^g] when its argument does. *)
Lemma binary_round_aux_below (sx : bool) (mx ex : Z) (lx : location) (t g : Z) :
  0 <= mx -> 0 < t -> Zdigits2 t <= prec ->
  emin prec emax <= g <= emax - prec ->
  ex <= g ->
  below mx lx (t * 2 ^ (g - ex)) ->
  binary_round_aux prec emax sx mx ex lx = S754_zero sx \/
  exists m e,
    binary_round_aux prec emax sx mx ex lx = S754_finite sx m e /\
    ex <= e <= g /\ Zpos m <= t * 2 ^ (g - e).
Proof.
  intros Hmx Ht Hdt [Hg1 Hg2] Hex Hbelow.
  unfold binary_round_aux.
  destruct (shr_fexp prec emax mx ex lx) as [mrs' e'] eqn:E1.
  assert (Hf1 : fexp prec emax (Zdigits2 mx + ex) <= g).
  { apply fexp_le; [|assumption].
    pose proof (Zdigits2_le_scaled mx t (g - ex) Hmx Ht ltac:(lia)
                  (proj1 Hbelow)). lia. }
  destruct (shr_fexp_below mx ex lx t g Hmx ltac:(lia) Hex Hf1 Hbelow _ _ E1)
    as (Hm' & He' & Hb').
  pose proof (round_nearest_even_below _ _ _ Hb') as Hr.
  pose proof (round_nearest_even_nonneg _ (loc_of_shr_record mrs') Hm') as Hr0.
  set (m2 := round_nearest_even (shr_m mrs') (loc_of_shr_record mrs')) in *.
  destruct (shr_fexp prec emax m2 e' loc_Exact) as [mrs'' e''] eqn:E2.
  assert (Hf2 : fexp prec emax (Zdigits2 m2 + e') <= g).
  { apply fexp_le; [|assumption].
    pose proof (Zdigits2_le_scaled m2 t (g - e') Hr0 Ht ltac:(lia) Hr). lia. }
  assert (Hb2 : below m2 loc_Exact (t * 2 ^ (g - e')))
    by (split; [exact Hr | congruence]).
  destruct (shr_fexp_below m2 e' loc_Exact t g Hr0 ltac:(lia) ltac:(lia)
              Hf2 Hb2 _ _ E2) as (Hm'' & He'' & [Hb'' _]).
  destruct (shr_m mrs'') as [|m|m] eqn:Em; [left; reflexivity| |lia].
  right. exists m, e''.
  destruct (Z.leb_spec e'' (emax - prec)); [|lia].
  repeat split; auto; lia.
Qed.

End RoundingFacts.

Section Binary64Facts.

Local Open Scope Z_scope.

Lemma dyadic_le_at (m1 e1 m2 e2 c : Z) :
  c <= e1 -> c <= e2 ->
  (dyadic_le m1 e1 m2 e2 <-> m1 * 2 ^ (e1 - c) <= m2 * 2 ^ (e2 - c)).
Proof.
  intros H1 H2. unfold dyadic_le.
  set (d := Z.min e1 e2).
  assert (Hd : 0 < 2 ^ (d - c)) by (apply Z.pow_pos_nonneg; lia).
  replace (e1 - c) with ((e1 - d) + (d - c)) by lia.
  replace (e2 - c) with ((e2 - d) + (d - c)) by lia.
  rewrite !Z.pow_add_r by lia. rewrite !Z.mul_assoc.
  split; intros H.
  - apply Z.mul_le_mono_nonneg_r; lia.
  - apply Z.mul_le_mono_pos_r in H; lia.
Qed.

Lemma Zdigits2_mul_pow2 (a k : Z) :
  0 < a -> 0 <= k -> Zdigits2 (a * 2 ^ k) = Zdigits2 a + k.
Proof.
  intros Ha Hk.
  rewrite !Zdigits2_log2
    by (try apply Z.mul_pos_pos; try apply Z.pow_pos_nonneg; lia).
  rewrite Z.log2_mul_pow2 by lia. lia.
Qed.

(** A smaller dyadic number has no more digits in front of the point. *)
Lemma dyadic_le_digits (m1 e1 m2 e2 : Z) :
  0 < m1 -> 0 < m2 -> dyadic_le m1 e1 m2 e2 ->
  Zdigits2 m1 + e1 <= Zdigits2 m2 + e2.
Proof.
  intros H1 H2 Hle. unfold dyadic_le in Hle.
  set (c := Z.min e1 e2) in *.
  assert (Hp1 : 0 < 2 ^ (e1 - c)) by (apply Z.pow_pos_nonneg; lia).
  pose proof (Zdigits2_mono (m1 * 2 ^ (e1 - c)) (m2 * 2 ^ (e2 - c))
                ltac:(split; [nia | exact Hle])) as Hm.
  rewrite !Zdigits2_mul_pow2 in Hm by lia. lia.
Qed.

Lemma new_location_exact (nb_steps k : Z) :
  new_location nb_steps k = loc_Exact -> k = 0.
Proof.
  unfold new_location, new_location_even, new_location_odd.
  destruct (Z.even nb_steps); destruct (Z.eqb_spec k 0); auto; discriminate.
Qed.

(** The quotient of two positive floats, the first not above the second,
    is at most 1. *)
Lemma SFdiv_below_one (m1 : positive) (e1 : Z) (m2 : positive) (e2 : Z) :
  dyadic_le (Zpos m1) e1 (Zpos m2) e2 ->
  SFdiv PyFloat.prec PyFloat.emax (S754_finite false m1 e1) (S754_finite false m2 e2)
    = S754_zero false \/
  exists m e,
    SFdiv PyFloat.prec PyFloat.emax (S754_finite false m1 e1) (S754_finite false m2 e2)
      = S754_finite false m e /\
    e <= 0 /\ Zpos m <= 2 ^ (- e).
Proof.
  intros Hle. cbn [SFdiv]. unfold SFdiv_core_binary.
  pose proof (dyadic_le_digits (Zpos m1) e1 (Zpos m2) e2 ltac:(lia) ltac:(lia) Hle) as Hd.
  set (d1 := Zdigits2 (Zpos m1)) in *. set (d2 := Zdigits2 (Zpos m2)) in *.
  set (e' := Z.min (fexp PyFloat.prec PyFloat.emax (d1 + e1 - (d2 + e2))) (e1 - e2)).
  assert (He' : e' <= 0 /\ e' <= e1 - e2).
  { unfold e', fexp, emin, PyFloat.prec, PyFloat.emax. lia. }
  destruct He' as [He'0 He'12].
  set (s := e1 - e2 - e').
  assert (Hs : 0 <= s) by (unfold s; lia).
  set (M := match s with
            | 0 => Zpos m1
            | Zpos _ => Z.shiftl (Zpos m1) s
            | Zneg _ => 0
            end).
  assert (HM : M = Zpos m1 * 2 ^ s).
  { unfold M. destruct s as [|p|p] eqn:Es.
    - rewrite Z.pow_0_r. lia.
    - rewrite Z.shiftl_mul_pow2 by lia. reflexivity.
    - lia. }
  assert (HMle : M <= Zpos m2 * 2 ^ (- e')).
  { rewrite HM.
    apply (dyadic_le_at _ _ _ _ (Z.min e1 e2 + e')) in Hle; [|lia|lia].
    assert (Hc : 0 < 2 ^ (e2 - Z.min e1 e2)) by (apply Z.pow_pos_nonneg; lia).
    apply (Z.mul_le_mono_pos_r _ _ (2 ^ (e2 - Z.min e1 e2))); [exact Hc|].
    rewrite <- !Z.mul_assoc, <- !Z.pow_add_r by lia.
    replace (s + (e2 - Z.min e1 e2)) with (e1 - (Z.min e1 e2 + e'))
      by (unfold s; lia).
    replace (- e' + (e2 - Z.min e1 e2)) with (e2 - (Z.min e1 e2 + e')) by lia.
    exact Hle. }
  clearbody M.
  pose proof (Z_div_mod M (Zpos m2) ltac:(lia)) as Hdm.
  destruct (Z.div_eucl M (Zpos m2)) as [q r]. destruct Hdm as [Hq Hr].
  assert (HP : 0 < 2 ^ (- e')) by (apply Z.pow_pos_nonneg; lia).
  assert (HM0 : 0 <= M) by (rewrite HM; apply Z.mul_nonneg_nonneg; [lia|]; apply Z.pow_nonneg; lia).
  assert (Hq0 : 0 <= q) by nia.
  assert (Hbelow : below q (new_location (Zpos m2) r) (1 * 2 ^ (0 - e'))).
  { rewrite Z.mul_1_l, Z.sub_0_l. split.
    - nia.
    - intros Hinex.
      assert (r <> 0) by (intros ->; apply Hinex; unfold new_location,
        new_location_even, new_location_odd; destruct (Z.even (Zpos m2)); reflexivity).
      nia. }
  destruct (binary_round_aux_below PyFloat.prec PyFloat.emax (xorb false false) q e'
              (new_location (Zpos m2) r) 1 0 Hq0 ltac:(lia)
              ltac:(cbn; unfold PyFloat.prec; lia)
              ltac:(unfold emin, PyFloat.prec, PyFloat.emax; lia) He'0 Hbelow)
    as [Hz|(m & e & Hf & He & Hm)].
  - left. exact Hz.
  - right. exists m, e. rewrite Z.mul_1_l, Z.sub_0_l in Hm.
    repeat split; auto; lia.
Qed.

(** The product by 100 of a float that is at most 1 is at most 100. *)
Lemma SFmul_hundred_below (m : positive) (e : Z) :
  e <= 0 -> Zpos m <= 2 ^ (- e) ->
  SFmul PyFloat.prec PyFloat.emax (S754_finite false m e)
    (S754_finite false 7036874417766400 (-46)) = S754_zero false \/
  exists m' e',
    SFmul PyFloat.prec PyFloat.emax (S754_finite false m e)
      (S754_finite false 7036874417766400 (-46)) = S754_finite false m' e' /\
    e' <= 2 /\ Zpos m' <= 25 * 2 ^ (2 - e').
Proof.
  intros He Hm. cbn [SFmul].
  assert (HP : 0 < 2 ^ (- e)) by (apply Z.pow_pos_nonneg; lia).
  assert (Hbelow : below (Zpos (m * 7036874417766400)) loc_Exact
                     (25 * 2 ^ (2 - (e + -46)))).
  { split; [|congruence].
    replace (2 - (e + -46)) with (48 + - e) by lia.
    rewrite Z.pow_add_r by lia. rewrite Pos2Z.inj_mul.
    change (Zpos 7036874417766400) with (25 * 2 ^ 48). nia. }
  destruct (binary_round_aux_below PyFloat.prec PyFloat.emax (xorb false false)
              (Zpos (m * 7036874417766400)) (e + -46) loc_Exact 25 2
              ltac:(lia) ltac:(lia) ltac:(cbn; unfold PyFloat.prec; lia)
              ltac:(unfold emin, PyFloat.prec, PyFloat.emax; lia) ltac:(lia) Hbelow)
    as [Hz|(m' & e' & Hf & He' & Hm')].
  - left. exact Hz.
  - right. exists m', e'. repeat split; auto; lia.
Qed.

(** From the integer form of a bound to the rational one. *)
Lemma dyadic_Q_le (m e t g : Z) :
  e <= g -> m <= t * 2 ^ (g - e) ->
  (inject_Z m * Qpower 2 e <= inject_Z t * Qpower 2 g)%Q.
Proof.
  intros Heg Hm.
  assert (H2 : ~ (2 == 0)%Q) by discriminate.
  replace g with ((g - e) + e) by lia.
  rewrite Qpower_plus by exact H2.
  rewrite Qmult_assoc. apply Qmult_le_compat_r.
  - change 2%Q with (inject_Z 2). rewrite <- (Zpower_Qpower 2 (g - e)) by lia.
    rewrite <- inject_Z_mult. rewrite <- Zle_Qle. exact Hm.
  - apply Qlt_le_weak, Qpower_0_lt. reflexivity.
Qed.

Lemma iter_xO_pow2 (p d : positive) :
  Zpos (Pos.iter xO p d) = Zpos p * 2 ^ Zpos d.
Proof.
  induction d as [|d IH] using Pos.peano_ind.
  - cbn [Pos.iter]. rewrite Pos2Z.inj_xO. lia.
  - rewrite Pos.iter_succ, Pos2Z.inj_xO, IH, Pos2Z.inj_succ, Z.pow_succ_r by lia.
    lia.
Qed.

Lemma shr_fexp_stay (m e : Z) (l : location) :
  fexp PyFloat.prec PyFloat.emax (Zdigits2 m + e) <= e ->
  shr_fexp PyFloat.prec PyFloat.emax m e l = (shr_record_of_loc m l, e).
Proof.
  intros H. unfold shr_fexp, shr.
  destruct (fexp PyFloat.prec PyFloat.emax (Zdigits2 m + e) - e) eqn:E; try reflexivity. lia.
Qed.

(** A mantissa that already fits is left as it is. *)
Lemma binary_round_aux_fits (m : positive) (e : Z) :
  fexp PyFloat.prec PyFloat.emax (Zdigits2 (Zpos m) + e) <= e -> e <= PyFloat.emax - PyFloat.prec ->
  binary_round_aux PyFloat.prec PyFloat.emax false (Zpos m) e loc_Exact = S754_finite false m e.
Proof.
  intros Hf He. unfold binary_round_aux.
  rewrite shr_fexp_stay by assumption.
  cbn [shr_record_of_loc shr_m loc_of_shr_record round_nearest_even].
  rewrite shr_fexp_stay by assumption. cbn [shr_record_of_loc shr_m].
  destruct (Z.leb_spec e (PyFloat.emax - PyFloat.prec)); [reflexivity | lia].
Qed.

Lemma binary_normalize_small (p : positive) :
  Zdigits2 (Zpos p) <= 53 ->
  exists m e,
    binary_normalize PyFloat.prec PyFloat.emax (Zpos p) 0 false = S754_finite false m e /\
    -52 <= e <= 0 /\ Zpos m = Zpos p * 2 ^ (- e).
Proof.
  intros Hd. cbn [binary_normalize]. unfold binary_round.
  change (Zpos (digits2_pos p)) with (Zdigits2 (Zpos p)).
  assert (Hd1 : 1 <= Zdigits2 (Zpos p)) by (cbn; lia).
  assert (Hfexp : fexp PyFloat.prec PyFloat.emax (Zdigits2 (Zpos p) + 0) = Zdigits2 (Zpos p) - 53)
    by (unfold fexp, emin, PyFloat.prec, PyFloat.emax; lia).
  rewrite Hfexp. unfold shl_align.
  destruct (Zdigits2 (Zpos p) - 53 - 0) as [|d|d] eqn:Ed.
  - exists p, 0. rewrite binary_round_aux_fits.
    + repeat split; lia.
    + unfold fexp, emin, PyFloat.prec, PyFloat.emax. lia.
    + unfold PyFloat.prec, PyFloat.emax. lia.
  - lia.
  - exists (Pos.iter xO p d), (Zdigits2 (Zpos p) - 53).
    assert (Hm : Zpos (Pos.iter xO p d) = Zpos p * 2 ^ Zpos d)
      by apply iter_xO_pow2.
    rewrite binary_round_aux_fits.
    + repeat split; try lia. rewrite Hm. do 2 f_equal. lia.
    + rewrite Hm, Zdigits2_mul_pow2 by lia.
      unfold fexp, emin, PyFloat.prec, PyFloat.emax. lia.
    + unfold PyFloat.prec, PyFloat.emax. lia.
Qed.

Lemma round_nearest_even_range (m : Z) (l : location) :
  m <= round_nearest_even m l <= m + 1.
Proof. destruct l as [|[]]; cbn; try lia. destruct (Z.even m); lia. Qed.

Lemma binary_normalize_big (p : positive) :
  53 < Zdigits2 (Zpos p) <= 1023 ->
  exists m e,
    binary_normalize PyFloat.prec PyFloat.emax (Zpos p) 0 false = S754_finite false m e /\
    0 < e <= 971 /\ Zpos m * 2 ^ e = nearest_repr (Zpos p).
Proof.
  intros Hd. cbn [binary_normalize]. unfold binary_round, nearest_repr.
  change (Zpos (digits2_pos p)) with (Zdigits2 (Zpos p)).
  set (D := Zdigits2 (Zpos p)) in *.
  assert (Hfexp : fexp PyFloat.prec PyFloat.emax (D + 0) = D - 53)
    by (unfold fexp, emin, PyFloat.prec, PyFloat.emax; lia).
  rewrite Hfexp. unfold shl_align.
  destruct (D - 53 - 0) as [|d|d] eqn:Ed; [lia| |lia].
  unfold binary_round_aux. unfold shr_fexp at 1.
  change (Zdigits2 (Zpos p)) with D. rewrite Hfexp.
  assert (EP : D - 53 = Zpos d) by lia. rewrite Ed, EP.
  destruct (shr_pos (Zpos p) 0 loc_Exact d ltac:(lia)) as (r & s & -> & Hr & Hs).
  cbn [shr_record_of_loc shr_r shr_s orb] in Hs. rewrite orb_false_r in Hs.
  rewrite <- Hr, <- Hs. cbn [shr_m]. change (0 + Zpos d) with (Zpos d).
  set (q := Zpos p / 2 ^ Zpos d).
  set (loc := loc_of_shr_record (Build_shr_record q r s)).
  pose proof (round_nearest_even_range q loc) as Hrange.
  set (m2 := round_nearest_even q loc) in *.
  (* the quotient has exactly 53 digits *)
  assert (HP : 0 < 2 ^ Zpos d) by (apply Z.pow_pos_nonneg; lia).
  pose proof (Zdigits2_lower (Zpos p) ltac:(lia)) as Hlow.
  pose proof (Zdigits2_upper (Zpos p) ltac:(lia)) as Hup.
  change (Zdigits2 (Zpos p)) with D in Hlow, Hup.
  assert (Hq : 2 ^ 52 <= q < 2 ^ 53).
  { unfold q. split.
    - apply Z.div_le_lower_bound; [lia|].
      rewrite <- Z.pow_add_r by lia.
      replace (Zpos d + 52) with (D - 1) by lia. exact Hlow.
    - apply Z.div_lt_upper_bound; [lia|].
      rewrite <- Z.pow_add_r by lia.
      replace (Zpos d + 53) with D by lia. exact Hup. }
  destruct (Z.eq_dec m2 (2 ^ 53)) as [Hcarry|Hno].
  - (* the mantissa was rounded up to 2^53 *)
    assert (Hdig : Zdigits2 m2 = 54) by (rewrite Hcarry; reflexivity).
    unfold shr_fexp. rewrite Hdig.
    replace (fexp PyFloat.prec PyFloat.emax (54 + Zpos d) - Zpos d) with 1
      by (unfold fexp, emin, PyFloat.prec, PyFloat.emax; lia).
    destruct (shr_pos m2 (Zpos d) loc_Exact 1 ltac:(lia)) as (r' & s' & -> & _).
    cbn [shr_m]. rewrite Hcarry. change (2 ^ 53 / 2 ^ 1) with (Zpos (2 ^ 52)).
    cbv iota.
    destruct (Z.leb_spec (Zpos d + 1) (PyFloat.emax - PyFloat.prec));
      [|unfold PyFloat.prec, PyFloat.emax in *; lia].
    eexists _, _. split; [reflexivity|]. split; [lia|].
    rewrite Z.pow_add_r by lia. change (Zpos (2 ^ 52)) with (2 ^ 52). lia.
  - assert (Hdig : Zdigits2 m2 = 53).
    { apply Z.le_antisymm.
      - apply Zdigits2_le_of_lt_pow; lia.
      - assert (2 ^ (Zdigits2 m2) > 2 ^ 52).
        { pose proof (Zdigits2_upper m2 ltac:(lia)). lia. }
        assert (52 < Zdigits2 m2); [|lia].
        apply (Z.pow_lt_mono_r_iff 2); [lia | apply Zdigits2_nonneg | lia]. }
    rewrite shr_fexp_stay
      by (rewrite Hdig; unfold fexp, emin, PyFloat.prec, PyFloat.emax; lia).
    cbn [shr_record_of_loc shr_m].
    destruct m2 as [|m|m] eqn:Em; [lia| |lia].
    destruct (Z.leb_spec (Zpos d) (PyFloat.emax - PyFloat.prec));
      [|unfold PyFloat.prec, PyFloat.emax in *; lia].
    eexists _, _. split; [reflexivity|]. split; [lia|]. reflexivity.
Qed.

Lemma nearest_repr_bounds (p : Z) :
  0 < p ->
  2 ^ (Zdigits2 p - 1) <= nearest_repr p <= 2 ^ Zdigits2 p.
Proof.
  intros Hp. unfold nearest_repr.
  pose proof (Zdigits2_lower p Hp) as Hlow.
  pose proof (Zdigits2_upper p ltac:(lia)) as Hup.
  set (D := Zdigits2 p) in *.
  destruct (D - 53) as [|d|d] eqn:Ed; [lia| |lia].
  set (q := p / 2 ^ Zpos d).
  match goal with
  | |- context [round_nearest_even q ?l] =>
      pose proof (round_nearest_even_range q l) as Hrange;
      set (m2 := round_nearest_even q l) in *
  end.
  assert (HP : 0 < 2 ^ Zpos d) by (apply Z.pow_pos_nonneg; lia).
  assert (Hq : 2 ^ 52 <= q < 2 ^ 53).
  { unfold q. split.
    - apply Z.div_le_lower_bound; [lia|].
      rewrite <- Z.pow_add_r by lia.
      replace (Zpos d + 52) with (D - 1) by lia. exact Hlow.
    - apply Z.div_lt_upper_bound; [lia|].
      rewrite <- Z.pow_add_r by lia.
      replace (Zpos d + 53) with D by lia. exact Hup. }
  assert (E52 : 2 ^ (D - 1) = 2 ^ 52 * 2 ^ Zpos d).
  { rewrite <- Z.pow_add_r by lia. f_equal. lia. }
  assert (E53 : 2 ^ D = 2 ^ 53 * 2 ^ Zpos d).
  { rewrite <- Z.pow_add_r by lia. f_equal. lia. }
  rewrite E52, E53. nia.
Qed.

(** Two numbers with the same quotient by [2h * ...] round in the order
    of their remainders. *)
Lemma round_same_quotient (h q p1 p2 : Z) :
  0 < h -> 0 <= p1 <= p2 ->
  p1 / (2 * h) = q -> p2 / (2 * h) = q ->
  round_nearest_even q
    (loc_of_shr_record
       (Build_shr_record q (Z.odd (p1 / h)) (negb (p1 mod h =? 0)))) <=
  round_nearest_even q
    (loc_of_shr_record
       (Build_shr_record q (Z.odd (p2 / h)) (negb (p2 mod h =? 0)))).
Proof.
  intros Hh Hp Hq1 Hq2.
  pose proof (Z.div_mod p1 h ltac:(lia)) as E1.
  pose proof (Z.mod_pos_bound p1 h Hh) as B1.
  pose proof (Z.div_mod p2 h ltac:(lia)) as E2.
  pose proof (Z.mod_pos_bound p2 h Hh) as B2.
  pose proof (Z.div_mod p1 (2 * h) ltac:(lia)) as F1.
  pose proof (Z.mod_pos_bound p1 (2 * h) ltac:(lia)) as C1.
  pose proof (Z.div_mod p2 (2 * h) ltac:(lia)) as F2.
  pose proof (Z.mod_pos_bound p2 (2 * h) ltac:(lia)) as C2.
  rewrite Hq1 in F1. rewrite Hq2 in F2.
  set (a1 := p1 / h) in *. set (b1 := p1 mod h) in *.
  set (a2 := p2 / h) in *. set (b2 := p2 mod h) in *.
  assert (Ha1 : a1 = 2 * q \/ a1 = 2 * q + 1) by nia.
  assert (Ha2 : a2 = 2 * q \/ a2 = 2 * q + 1) by nia.
  assert (Hodd0 : Z.odd (2 * q) = false)
    by (rewrite Z.odd_mul; reflexivity).
  assert (Hodd1 : Z.odd (2 * q + 1) = true)
    by (rewrite Z.odd_add, Hodd0; reflexivity).
  destruct Ha1 as [-> | ->], Ha2 as [-> | ->];
    rewrite ?Hodd0, ?Hodd1;
    destruct (Z.eqb_spec b1 0) as [Z1|Z1];
    destruct (Z.eqb_spec b2 0) as [Z2|Z2];
    cbn [negb loc_of_shr_record round_nearest_even];
    try destruct (Z.even q); try lia; exfalso; nia.
Qed.

Lemma nearest_repr_mono (p1 p2 : Z) :
  0 < p1 <= p2 -> nearest_repr p1 <= nearest_repr p2.
Proof.
  intros [H1 H12].
  pose proof (Zdigits2_mono p1 p2 ltac:(lia)) as HD.
  destruct (Z.eq_dec (Zdigits2 p1) (Zdigits2 p2)) as [Heq|Hne].
  - unfold nearest_repr. rewrite Heq.
    destruct (Zdigits2 p2 - 53) as [|d|d] eqn:Ed; [lia| |lia].
    assert (HP : 0 < 2 ^ Zpos d) by (apply Z.pow_pos_nonneg; lia).
    apply Z.mul_le_mono_nonneg_r; [lia|].
    pose proof (Z.div_le_mono p1 p2 (2 ^ Zpos d) HP H12) as Hq.
    destruct (Z.eq_dec (p1 / 2 ^ Zpos d) (p2 / 2 ^ Zpos d)) as [Hsame|Hdiff].
    + rewrite Hsame.
      assert (Hsplit : 2 ^ Zpos d = 2 * 2 ^ (Zpos d - 1)).
      { rewrite <- Z.pow_succ_r by lia. f_equal. lia. }
      apply round_same_quotient.
      * apply Z.pow_pos_nonneg; lia.
      * lia.
      * rewrite <- Hsplit. exact Hsame.
      * rewrite <- Hsplit. reflexivity.
    + match goal with
      | |- round_nearest_even ?q1 ?l1 <= round_nearest_even ?q2 ?l2 =>
          pose proof (round_nearest_even_range q1 l1);
          pose proof (round_nearest_even_range q2 l2)
      end. lia.
  - pose proof (nearest_repr_bounds p1 H1) as [_ Hu].
    pose proof (nearest_repr_bounds p2 ltac:(lia)) as [Hl _].
    assert (2 ^ Zdigits2 p1 <= 2 ^ (Zdigits2 p2 - 1))
      by (apply Z.pow_le_mono_r; lia).
    lia.
Qed.

End Binary64Facts.

(** ** percent_staged: the percentage *)

Section PercentFacts.

Local Open Scope Z_scope.

(** [float(p)] of a positive integer below [2^1023] is the finite float
    that stands for [nearest_repr p]. *)
Lemma binary_normalize_pos (p : positive) :
  Zpos p < 2 ^ 1023 ->
  exists m e,
    binary_normalize PyFloat.prec PyFloat.emax (Zpos p) 0 false
      = S754_finite false m e /\
    -52 <= e <= 971 /\
    Zpos m * 2 ^ (e + 52) = nearest_repr (Zpos p) * 2 ^ 52.
Proof.
  intros Hp.
  destruct (Z_le_gt_dec (Zdigits2 (Zpos p)) 53) as [Hsmall|Hbig].
  - destruct (binary_normalize_small p Hsmall) as (m & e & Hn & He & Hm).
    exists m, e. split; [exact Hn|]. split; [lia|].
    unfold nearest_repr.
    destruct (Zdigits2 (Zpos p) - 53) as [|d|d] eqn:Ed; [|lia|];
      rewrite Hm, <- Z.mul_assoc, <- Z.pow_add_r by lia;
      do 2 f_equal; lia.
  - assert (Hd : Zdigits2 (Zpos p) <= 1023)
      by (apply Zdigits2_le_of_lt_pow; lia).
    destruct (binary_normalize_big p ltac:(lia)) as (m & e & Hn & He & Hm).
    exists m, e. split; [exact Hn|]. split; [lia|].
    rewrite <- Hm, Z.pow_add_r by lia. lia.
Qed.

Lemma of_int_zero : PyFloat.of_int 0 = Ok (S754_zero false).
Proof. reflexivity. Qed.

Lemma of_int_hundred : PyFloat.of_int 100 = Ok PyFloat.hundred.
Proof. reflexivity. Qed.

(** The conversion of integers to floats keeps their order. *)
Lemma of_int_mono (p1 p2 : Z) :
  0 < p1 <= p2 -> p2 < 2 ^ 1023 ->
  exists m1 e1 m2 e2,
    PyFloat.of_int p1 = Ok (S754_finite false m1 e1) /\
    PyFloat.of_int p2 = Ok (S754_finite false m2 e2) /\
    dyadic_le (Zpos m1) e1 (Zpos m2) e2.
Proof.
  intros [H1 H12] H2.
  destruct p1 as [|p1|p1]; try lia. destruct p2 as [|p2|p2]; try lia.
  destruct (binary_normalize_pos p1 ltac:(lia)) as (m1 & e1 & Hn1 & He1 & Hm1).
  destruct (binary_normalize_pos p2 H2) as (m2 & e2 & Hn2 & He2 & Hm2).
  exists m1, e1, m2, e2. unfold PyFloat.of_int. rewrite Hn1, Hn2.
  split; [reflexivity|]. split; [reflexivity|].
  apply (dyadic_le_at _ _ _ _ (-52)); [lia|lia|].
  replace (e1 - -52) with (e1 + 52) by lia.
  replace (e2 - -52) with (e2 + 52) by lia.
  rewrite Hm1, Hm2.
  pose proof (nearest_repr_mono (Zpos p1) (Zpos p2) ltac:(lia)). lia.
Qed.

End PercentFacts.

Lemma count_status_disjoint (a b : str) (results : list (str * str)) :
  a <> b ->
  count_status a results + count_status b results <= length results.
Proof.
  intros Hab. unfold count_status.
  induction results as [|[u st] results IH]; cbn [List.filter length snd].
  - lia.
  - destruct (PyStr.eqb st a) eqn:Ea; destruct (PyStr.eqb st b) eqn:Eb;
      cbn [length]; try lia.
    apply eqb_eq in Ea, Eb. congruence.
Qed.

Lemma staged_le_total (results : list (str * str)) :
  staged (percent_staged_tally results) <=
  total_files (percent_staged_tally results).
Proof.
  destruct (tally_counts results) as (-> & -> & _).
  apply count_status_disjoint. discriminate.
Qed.

(** The value [percent_staged] computes, as a float: a zero or a finite
    float at most 100. *)
Lemma percent_value_run (results : list (str * str)) :
  results <> [] ->
  (Z.of_nat (length results) < 2 ^ 1023)%Z ->
  exists fs ft v,
    PyFloat.of_int (Z.of_nat (staged (percent_staged_tally results))) = Ok fs /\
    PyFloat.of_int (Z.of_nat (total_files (percent_staged_tally results))) = Ok ft /\
    PyFloat.div fs ft = Ok (SFdiv PyFloat.prec PyFloat.emax fs ft) /\
    v = PyFloat.mul (SFdiv PyFloat.prec PyFloat.emax fs ft) PyFloat.hundred /\
    percent_value results = Ok v /\
    (v = S754_zero false \/
     exists m e, v = S754_finite false m e /\ (e <= 2)%Z /\
                 (Zpos m <= 25 * 2 ^ (2 - e))%Z).
Proof.
  intros Hne Hlen. unfold percent_value.
  pose proof (staged_le_total results) as Hle.
  assert (Htot : total_files (percent_staged_tally results) = length results)
    by apply tally_counts.
  set (t := percent_staged_tally results) in *.
  assert (Hn : 0 < total_files t)
    by (rewrite Htot; destruct results; [congruence | cbn; lia]).
  destruct (Nat.eq_dec (staged t) 0) as [Hs0|Hs].
  - (* no staged file *)
    rewrite Hs0. change (Z.of_nat 0) with 0%Z. rewrite of_int_zero.
    destruct (of_int_mono (Z.of_nat (total_files t)) (Z.of_nat (total_files t))
                ltac:(lia) ltac:(lia)) as (m & e & _ & _ & Hft & _ & _).
    rewrite Hft. cbn [PyFloat.div SFdiv PyFloat.mul SFmul xorb PyFloat.hundred].
    eexists _, _, _. repeat split. left. reflexivity.
  - destruct (of_int_mono (Z.of_nat (staged t)) (Z.of_nat (total_files t))
                ltac:(lia) ltac:(lia)) as (m1 & e1 & m2 & e2 & Hfs & Hft & Hdy).
    rewrite Hfs, Hft. cbn [PyFloat.div].
    exists (S754_finite false m1 e1), (S754_finite false m2 e2).
    eexists. split; [reflexivity|]. split; [reflexivity|].
    split; [reflexivity|]. split; [reflexivity|]. split; [reflexivity|].
    destruct (SFdiv_below_one m1 e1 m2 e2 Hdy) as [Hz|(m & e & Hq & He & Hm)].
    + rewrite Hz. left. reflexivity.
    + rewrite Hq. unfold PyFloat.mul, PyFloat.hundred.
      destruct (SFmul_hundred_below m e He Hm) as [Hz|(m' & e' & Hp & He' & Hm')].
      * left. exact Hz.
      * right. exists m', e'. auto.
Qed.

Lemma bounded_float_to_Q (v : PyFloat.float) :
  (v = S754_zero false \/
   exists m e, v = S754_finite false m e /\ (e <= 2)%Z /\
               (Zpos m <= 25 * 2 ^ (2 - e))%Z) ->
  exists q, PyFloat.to_Q v = Some q /\ (0 <= q <= 100)%Q.
Proof.
  intros [->|(m & e & -> & He & Hm)].
  - exists 0%Q. split; [reflexivity|]. split; [apply Qle_refl | discriminate].
  - eexists. split; [reflexivity|]. cbn [cond_Zopp]. split.
    + apply Qmult_le_0_compat; [discriminate|].
      apply Qlt_le_weak, Qpower_0_lt. reflexivity.
    + apply (Qle_trans _ (inject_Z 25 * Qpower 2 2)).
      * apply dyadic_Q_le; assumption.
      * discriminate.
Qed.

(** C2. On a non-empty sequence of results (shorter than 2^1023, where
    [float] of the total would overflow; a Python list is shorter than
    2^63) [percent_staged] reports [str] of the float
    [(float(staged) / total) * 100], where [staged] is the number of
    results whose status is exactly [ONLINE] or [ONLINE_AND_NEARLINE] and
    [total] the number of results, the operations being those of binary64;
    the float is finite and lies between 0 and 100.  On the three results
    ONLINE, NEARLINE, ONLINE_AND_NEARLINE it is
    4691249611844266 * 2^-46 = 66.66666666666666. *)
Theorem percent_staged_reports :
  (forall (B : Type) (float_str : PyFloat.float -> str)
          (results : list (str * str)) (w : world B),
      results <> [] ->
      (Z.of_nat (length results) < 2 ^ 1023)%Z ->
      exists fs ft v q,
        PyFloat.of_int
          (Z.of_nat (count_status ONLINE results +
                     count_status ONLINE_AND_NEARLINE results)) = Ok fs /\
        PyFloat.of_int (Z.of_nat (length results)) = Ok ft /\
        PyFloat.div fs ft = Ok (SFdiv PyFloat.prec PyFloat.emax fs ft) /\
        v = PyFloat.mul (SFdiv PyFloat.prec PyFloat.emax fs ft) PyFloat.hundred /\
        percent_staged B float_str results w =
          (Ok (float_str v),
           mkWorld (trace w ++
                    [EvPrint (float_str v ++ lit " percent of files staged")])
             (backend w)) /\
        PyFloat.to_Q v = Some q /\ (0 <= q <= 100)%Q) /\
  percent_value Sample.results3 =
    Ok (S754_finite false 4691249611844266 (-46)) /\
  exists q,
    PyFloat.to_Q (S754_finite false 4691249611844266 (-46)) = Some q /\
    (666666666666666 # 10000000000000 < q)%Q /\
    (q < 666666666666667 # 10000000000000)%Q.
Proof.
  split; [|split].
  - intros B float_str results w Hne Hlen.
    destruct (percent_value_run results Hne Hlen)
      as (fs & ft & v & Hfs & Hft & Hdiv & Hv & Hval & Hbound).
    destruct (bounded_float_to_Q v Hbound) as (q & Hq & Hrange).
    destruct (tally_counts results) as (Htot & Hst & _).
    rewrite Htot in Hft. rewrite Hst, (Nat.add_comm (count_status _ _)) in Hfs.
    exists fs, ft, v, q. repeat split; try assumption; try apply Hrange.
    unfold percent_staged, bind, lift, print, emit, ret. rewrite Hval.
    reflexivity.
  - vm_compute. reflexivity.
  - eexists. split; [reflexivity|]. split; vm_compute; reflexivity.
Qed.

Lemma percent_staged_reports_witness :
  Sample.results3 <> [] /\
  (Z.of_nat (length Sample.results3) < 2 ^ 1023)%Z /\
  exists fs ft v q,
    PyFloat.of_int
      (Z.of_nat (count_status ONLINE Sample.results3 +
                 count_status ONLINE_AND_NEARLINE Sample.results3)) = Ok fs /\
    PyFloat.of_int (Z.of_nat (length Sample.results3)) = Ok ft /\
    PyFloat.div fs ft = Ok (SFdiv PyFloat.prec PyFloat.emax fs ft) /\
    v = PyFloat.mul (SFdiv PyFloat.prec PyFloat.emax fs ft) PyFloat.hundred /\
    percent_staged nat Sample.float_str Sample.results3 Sample.world0 =
      (Ok (Sample.float_str v),
       mkWorld (trace Sample.world0 ++
                [EvPrint (Sample.float_str v ++ lit " percent of files staged")])
         (backend Sample.world0)) /\
    PyFloat.to_Q v = Some q /\ (0 <= q <= 100)%Q.
Proof.
  assert (Hne : Sample.results3 <> []) by discriminate.
  assert (Hlen : (Z.of_nat (length Sample.results3) < 2 ^ 1023)%Z)
    by (vm_compute; reflexivity).
  split; [exact Hne|]. split; [exact Hlen|].
  exact (proj1 percent_staged_reports nat Sample.float_str Sample.results3
           Sample.world0 Hne Hlen).
Defined.

(** * Further properties *)

(** ** More on convert_to_surl *)

Lemma find_marker_srm (rest : str) :
  find MARKER (SRM ++ MARKER ++ rest) = Some (length SRM).
Proof. reflexivity. Qed.

(** X1. [convert_url] never raises: whatever the URL, it gives the prefix
    [srm://srm.grid.sara.nl:8443] followed by a final part of the URL
    that is empty or starts with [/pnfs]. *)
Theorem convert_url_shape (url : str) :
  exists pre rest,
    url = pre ++ rest /\
    convert_url url = Ok (SRM ++ rest) /\
    (rest = [] \/ exists post, rest = MARKER ++ post).
Proof.
  destruct (find MARKER url) as [j|] eqn:E.
  - exists (firstn j url), (skipn j url).
    split; [symmetry; apply firstn_skipn|].
    split; [apply convert_url_found; exact E|].
    right. apply find_from_Some in E. destruct E as (_ & Hat & _).
    rewrite Nat.sub_0_r in Hat. apply startswith_inv in Hat. exact Hat.
  - exists url, []. rewrite !app_nil_r.
    split; [reflexivity|]. split; [apply convert_url_not_found; exact E|].
    left. reflexivity.
Qed.

(** X2. A URL that is already a SURL of the site, the prefix followed by
    [/pnfs] and anything, is left as it is. *)
Theorem convert_url_canonical (rest : str) :
  convert_url (SRM ++ MARKER ++ rest) = Ok (SRM ++ MARKER ++ rest).
Proof.
  rewrite (convert_url_found _ _ (find_marker_srm rest)).
  rewrite skipn_app_exact. reflexivity.
Qed.

(** X3. Converting twice is converting once: what [convert_url] gives
    is left as it is by [convert_url]. *)
Theorem convert_url_idempotent (url surl : str) :
  convert_url url = Ok surl -> convert_url surl = Ok surl.
Proof.
  intros H. destruct (find MARKER url) as [j|] eqn:E.
  - rewrite (convert_url_found url j E) in H. injection H as <-.
    apply find_from_Some in E. destruct E as (_ & Hat & _).
    rewrite Nat.sub_0_r in Hat. apply startswith_inv in Hat.
    destruct Hat as [post ->].
    change (convert_url (SRM ++ MARKER ++ post) = Ok (SRM ++ MARKER ++ post)).
    rewrite (convert_url_found _ _ (find_marker_srm post)).
    rewrite skipn_app_exact. reflexivity.
  - rewrite (convert_url_not_found url E) in H. injection H as <-.
    reflexivity.
Qed.

Lemma convert_url_idempotent_witness :
  convert_url (lit "gsiftp://host/pnfs/b/file2") = Ok Sample.file2 /\
  convert_url Sample.file2 = Ok Sample.file2.
Proof.
  split; [reflexivity|].
  apply (convert_url_idempotent (lit "gsiftp://host/pnfs/b/file2")).
  reflexivity.
Defined.

Lemma words_scan_blank (py : python) (s : str) :
  forallb (isspace py) s = true -> words_scan py [] s = [].
Proof.
  induction s as [|c s IH]; cbn [forallb words_scan]; [reflexivity|].
  intros H. apply andb_prop in H. destruct H as [Hc Hs].
  rewrite Hc. apply IH. exact Hs.
Qed.

Lemma words_scan_nil_inv (py : python) (s : str) :
  forall cur, words_scan py cur s = [] ->
              cur = [] /\ forallb (isspace py) s = true.
Proof.
  induction s as [|c s IH]; intros cur H; cbn [words_scan forallb] in *.
  - destruct cur; [auto | discriminate].
  - destruct (isspace py c) eqn:Hc.
    + destruct cur; [|discriminate].
      destruct (IH [] H) as [_ Hs]. rewrite Hs. auto.
    + destruct (IH (c :: cur) H) as [Hcur _]. discriminate.
Qed.

Lemma convert_urls_shape (urls : list str) :
  forall acc, exists surls,
    convert_urls urls acc = Ok (acc ++ surls) /\
    length surls = length urls /\
    Forall (fun surl => startswith SRM surl = true) surls.
Proof.
  induction urls as [|url urls IH]; intros acc.
  - exists []. rewrite app_nil_r. repeat split. constructor.
  - assert (Hconv : exists rest, convert_url url = Ok (SRM ++ rest)).
    { destruct (find MARKER url) as [j|] eqn:E.
      - eexists. apply (convert_url_found url j E).
      - exists []. rewrite app_nil_r. apply (convert_url_not_found url E). }
    destruct Hconv as (rest & Hu).
    destruct (IH (acc ++ [SRM ++ rest])) as (surls & Hrun & Hlen & Hall).
    exists ((SRM ++ rest) :: surls). cbn [convert_urls]. rewrite Hu.
    cbv beta iota. rewrite <- app_assoc in Hrun. split; [exact Hrun|].
    split; [cbn [length]; lia|].
    constructor; [apply startswith_app | exact Hall].
Qed.

(** X4. On any text, under either interpreter, the conversion of the
    file never raises and gives as many SURLs as [f.read().split()] gives
    pieces, each starting with the prefix; it gives no SURL exactly when
    the text holds nothing but whitespace of that interpreter. *)
Theorem convert_text_shape (py : python) (text : str) :
  (exists surls,
      convert_text py text = Ok surls /\
      length surls = length (split_whitespace py text) /\
      Forall (fun surl => startswith SRM surl = true) surls) /\
  (forallb (isspace py) text = true <-> convert_text py text = Ok []).
Proof.
  destruct (convert_urls_shape (split_whitespace py text) [])
    as (surls & Hrun & Hlen & Hall).
  cbn [app] in Hrun.
  split; [exists surls; auto|]. split.
  - intros Hblank. unfold convert_text, split_whitespace.
    rewrite words_scan_blank by exact Hblank. reflexivity.
  - intros Hnone. unfold convert_text in Hnone. rewrite Hrun in Hnone.
    injection Hnone as ->. cbn [length] in Hlen.
    destruct (split_whitespace py text) eqn:E; [|discriminate].
    apply (words_scan_nil_inv py text [] E).
Qed.

Lemma convert_text_shape_witness :
  (forallb (isspace Python3) [Spaces.nbsp] = true /\
   convert_text Python3 [Spaces.nbsp] = Ok []) /\
  (convert_text Python2 (lit "  ") = Ok [] /\
   forallb (isspace Python2) (lit "  ") = true).
Proof.
  split.
  - split; [reflexivity|].
    apply (proj1 (proj2 (convert_text_shape Python3 [Spaces.nbsp]))).
    reflexivity.
  - split; [reflexivity|].
    apply (proj2 (proj2 (convert_text_shape Python2 (lit "  ")))).
    reflexivity.
Defined.

(** ** More on check_status_list *)

Section MoreStatusFacts.

Variables (B Ctx : Type).
Variable creat : B -> outcome Ctx * B.
Variable getx : Ctx -> str -> str -> B -> outcome str * B.

(** A context can always be created. *)
Hypothesis creat_ok : forall b, exists c b', creat b = (Ok c, b').

Lemma contexts_app (tr1 tr2 : list event) :
  contexts (tr1 ++ tr2) = contexts tr1 + contexts tr2.
Proof. unfold contexts. rewrite flat_map_app, length_app. reflexivity. Qed.

Lemma check_batch_answered (s : list str) :
  Forall (answered getx) s ->
  forall (results : list (str * str)) (w : world B),
  exists rs tr b',
    check_batch B Ctx creat getx true true s results w =
      (Ok (results ++ rs), mkWorld (trace w ++ tr) b') /\
    map fst rs = s /\
    queries tr = map (fun u => (u, USER_STATUS)) s /\
    pauses tr = [] /\
    printed tr = map (fun r => status_line (fst r) (snd r)) rs /\
    contexts tr = length s /\
    Forall (fun r => exists c b b',
                getx c (fst r) USER_STATUS b = (Ok (snd r), b')) rs.
Proof.
  induction s as [|sc s IH]; intros Hall results w.
  - exists [], [], (backend w). cbn. rewrite !app_nil_r.
    destruct w; repeat split; auto.
  - inversion Hall as [|? ? Hsc Hs]; subst.
    destruct (creat_ok (backend w)) as (c & b1 & Hc).
    destruct (Hsc c b1) as (status & b2 & Hg).
    pose proof (check_status_run B Ctx creat getx sc true w c b1 b2 status Hc Hg)
      as Hrun. cbn iota in Hrun.
    cbn [check_batch]. unfold bind at 1. rewrite Hrun.
    destruct (IH Hs (results ++ [(sc, status)]) (mkWorld
      (trace w ++ [EvCreatContext; EvGetxattr sc USER_STATUS;
                   EvPrint (status_line sc status)]) b2))
      as (rs & tr & b' & Hrest & Hfst & Hq & Hp & Hpr & Hctx & Hans).
    exists ((sc, status) :: rs),
      ([EvCreatContext; EvGetxattr sc USER_STATUS;
        EvPrint (status_line sc status)] ++ tr), b'.
    rewrite Hrest. cbn [trace]. rewrite <- !app_assoc.
    repeat split.
    + cbn [map fst]. rewrite Hfst. reflexivity.
    + unfold queries in *. cbn [flat_map app]. rewrite Hq. reflexivity.
    + unfold pauses in *. cbn [flat_map app]. exact Hp.
    + unfold printed in *. cbn [flat_map app map fst snd]. rewrite Hpr.
      reflexivity.
    + rewrite contexts_app, Hctx. reflexivity.
    + constructor; [|exact Hans]. cbn [fst snd]. eauto.
Qed.

Lemma check_loop_answered (surls : list str) (n : nat) :
  Forall (answered getx) surls ->
  forall (i : nat) (results : list (str * str)) (w : world B),
  length surls - i = n ->
  exists rs tr b',
    check_loop B Ctx creat getx true true surls (length surls) i results w =
      (Ok (results ++ rs), mkWorld (trace w ++ tr) b') /\
    map fst rs = skipn i surls /\
    printed tr = map (fun r => status_line (fst r) (snd r)) rs /\
    contexts tr = length surls - i /\
    Forall (fun r => exists c b b',
                getx c (fst r) USER_STATUS b = (Ok (snd r), b')) rs.
Proof.
  intros Hall. induction n as [n IH] using lt_wf_ind. intros i results w Hn.
  rewrite check_loop_eq. destruct (lt_dec i (length surls)) as [Hlt|Hge].
  - destruct (check_batch_answered
                (slice surls i (Nat.min (i + nf) (length surls)))
                ltac:(unfold slice; apply Forall_take, Forall_drop, Hall)
                results w)
      as (rs1 & tr1 & b1 & Hb & Hfst1 & _ & _ & Hpr1 & Hctx1 & Hans1).
    unfold bind at 1. rewrite Hb.
    unfold bind at 1. unfold sleep, emit. cbn [trace backend].
    destruct (IH (length surls - (i + nf)) ltac:(unfold nf; lia) (i + nf)
                (results ++ rs1)
                (mkWorld ((trace w ++ tr1) ++ [EvSleep 1]) b1) eq_refl)
      as (rs2 & tr2 & b2 & Hl & Hfst2 & Hpr2 & Hctx2 & Hans2).
    exists (rs1 ++ rs2), (tr1 ++ [EvSleep 1] ++ tr2), b2.
    rewrite Hl. cbn [trace]. rewrite <- !app_assoc.
    repeat split.
    + rewrite map_app, Hfst1, Hfst2. apply slice_batch.
    + unfold printed in *. rewrite !flat_map_app, Hpr1, Hpr2.
      cbn [flat_map app]. rewrite map_app. reflexivity.
    + rewrite !contexts_app, Hctx1, Hctx2.
      change (contexts [EvSleep 1]) with 0.
      pose proof (f_equal (@length str) (slice_batch surls i)) as Hs.
      rewrite length_app, !length_skipn in Hs. lia.
    + apply Forall_app. split; assumption.
  - exists [], [], (backend w). unfold ret. rewrite !app_nil_r.
    rewrite skipn_all2 by lia.
    destruct w; repeat split; try reflexivity; [cbn; lia | constructor].
Qed.

(** A lookup that is refused ends [check_status] with its exception,
    nothing being written. *)
Lemma check_status_refused (surl : str) (verbose : bool) (w : world B)
    (c : Ctx) (b1 b2 : B) (e : exn) :
  creat (backend w) = (Ok c, b1) ->
  getx c surl USER_STATUS b1 = (Raise e, b2) ->
  check_status B Ctx creat getx true surl verbose w =
    (Raise e,
     mkWorld (trace w ++ [EvCreatContext; EvGetxattr surl USER_STATUS]) b2).
Proof.
  intros Hc Hg.
  cbv [check_status bind global_gfal2 ret creat_context getxattr emit print
       local raise].
  cbn [backend trace]. rewrite Hc. cbn [backend trace]. rewrite Hg.
  rewrite <- !app_assoc. reflexivity.
Qed.

Section Refused.

Variables (bad : str) (e : exn).
Hypothesis bad_refused : refused getx bad e.

Lemma check_batch_refused (s1 s2 : list str) :
  Forall (answered getx) s1 ->
  forall (results : list (str * str)) (w : world B),
  exists tr b',
    check_batch B Ctx creat getx true true (s1 ++ bad :: s2) results w =
      (Raise e, mkWorld (trace w ++ tr) b') /\
    queries tr = map (fun u => (u, USER_STATUS)) (s1 ++ [bad]) /\
    pauses tr = [] /\
    length (printed tr) = length s1.
Proof.
  induction s1 as [|sc s1 IH]; intros Hall results w.
  - destruct (creat_ok (backend w)) as (c & b1 & Hc).
    destruct (bad_refused c b1) as (b2 & Hg).
    cbn [app check_batch]. unfold bind at 1.
    rewrite (check_status_refused bad true w c b1 b2 e Hc Hg).
    eexists _, _. split; [reflexivity|]. repeat split.
  - inversion Hall as [|? ? Hsc Hs]; subst.
    destruct (creat_ok (backend w)) as (c & b1 & Hc).
    destruct (Hsc c b1) as (status & b2 & Hg).
    pose proof (check_status_run B Ctx creat getx sc true w c b1 b2 status Hc Hg)
      as Hrun. cbn iota in Hrun.
    cbn [app check_batch]. unfold bind at 1. rewrite Hrun.
    destruct (IH Hs (results ++ [(sc, status)]) (mkWorld
      (trace w ++ [EvCreatContext; EvGetxattr sc USER_STATUS;
                   EvPrint (status_line sc status)]) b2))
      as (tr & b' & Hrest & Hq & Hp & Hpr).
    exists ([EvCreatContext; EvGetxattr sc USER_STATUS;
             EvPrint (status_line sc status)] ++ tr), b'.
    rewrite Hrest. cbn [trace]. rewrite <- !app_assoc.
    repeat split.
    + unfold queries in *. cbn [flat_map app map]. rewrite Hq. reflexivity.
    + unfold pauses in *. cbn [flat_map app]. exact Hp.
    + unfold printed in *. cbn [flat_map app length]. rewrite Hpr. reflexivity.
Qed.

Lemma check_loop_refused (pre post : list str) (n : nat) :
  Forall (answered getx) pre ->
  forall (i : nat) (results : list (str * str)) (w : world B),
  length pre - i = n -> i <= length pre ->
  exists tr b',
    check_loop B Ctx creat getx true true (pre ++ bad :: post)
      (length (pre ++ bad :: post)) i results w =
      (Raise e, mkWorld (trace w ++ tr) b') /\
    queries tr = map (fun u => (u, USER_STATUS)) (skipn i pre ++ [bad]) /\
    pauses tr = repeat 1 ((length pre - i) / nf) /\
    length (printed tr) = length pre - i.
Proof.
  intros Hall. induction n as [n IH] using lt_wf_ind.
  intros i results w Hn Hi.
  assert (Hlen : length (pre ++ bad :: post) = length pre + S (length post))
    by (rewrite length_app; reflexivity).
  rewrite check_loop_eq.
  destruct (lt_dec i (length (pre ++ bad :: post))) as [_|Hge]; [|lia].
  assert (Hskip : skipn i (pre ++ bad :: post) = skipn i pre ++ bad :: post).
  { rewrite skipn_app. replace (i - length pre) with 0 by lia. reflexivity. }
  unfold slice. rewrite Hskip, firstn_app, length_skipn.
  destruct (le_lt_dec (i + nf) (length pre)) as [Hfull|Hpart].
  - (* the whole batch is answered *)
    replace (Nat.min (i + nf) (length (pre ++ bad :: post)) - i) with nf by lia.
    replace (nf - (length pre - i)) with 0 by lia.
    rewrite firstn_O, app_nil_r.
    destruct (check_batch_answered (firstn nf (skipn i pre))
                ltac:(apply Forall_take, Forall_drop, Hall) results w)
      as (rs1 & tr1 & b1 & Hb & Hfst1 & Hq1 & Hp1 & Hpr1 & _ & _).
    unfold bind at 1. rewrite Hb.
    unfold bind at 1. unfold sleep, emit. cbn [trace backend].
    destruct (IH (length pre - (i + nf)) ltac:(unfold nf in *; lia) (i + nf)
                (results ++ rs1)
                (mkWorld ((trace w ++ tr1) ++ [EvSleep 1]) b1) eq_refl Hfull)
      as (tr2 & b2 & Hl & Hq2 & Hp2 & Hpr2).
    exists (tr1 ++ [EvSleep 1] ++ tr2), b2.
    rewrite Hl. cbn [trace]. rewrite <- !app_assoc.
    assert (Hparts : firstn nf (skipn i pre) ++ skipn (i + nf) pre = skipn i pre).
    { rewrite (Nat.add_comm i nf), <- skipn_skipn. apply firstn_skipn. }
    repeat split.
    + unfold queries in *. rewrite !flat_map_app, Hq1, Hq2. cbn [flat_map app].
      rewrite <- map_app, app_assoc, Hparts. reflexivity.
    + unfold pauses in *. rewrite !flat_map_app, Hp1, Hp2. cbn [flat_map app].
      replace (length pre - i) with ((length pre - (i + nf)) + 1 * nf) by lia.
      rewrite Nat.div_add by (unfold nf; lia).
      rewrite (Nat.add_comm _ 1). reflexivity.
    + unfold printed in *. rewrite !flat_map_app, !length_app, Hpr1, Hpr2.
      cbn [flat_map length app]. rewrite length_map.
      pose proof (f_equal (@length str) Hfst1) as Hs.
      rewrite length_map, length_firstn, length_skipn in Hs. lia.
  - (* the batch reaches the lookup that is refused *)
    rewrite firstn_all2 by (rewrite length_skipn; lia).
    destruct (Nat.min (i + nf) (length (pre ++ bad :: post)) - i
              - (length pre - i)) as [|k] eqn:Ek; [unfold nf in *; lia|].
    cbn [firstn].
    destruct (check_batch_refused (skipn i pre) (firstn k post)
                ltac:(apply Forall_drop, Hall) results w)
      as (tr & b' & Hb & Hq & Hp & Hpr).
    unfold bind at 1. rewrite Hb.
    exists tr, b'. split; [reflexivity|]. split; [exact Hq|].
    split.
    + rewrite Nat.div_small by lia. exact Hp.
    + rewrite Hpr. apply length_skipn.
Qed.

End Refused.

End MoreStatusFacts.

(** X5. When every lookup is answered, each pair [check_status_list]
    returns holds a URL of the input and a status the backend answered
    for that very URL; the console shows one line for each pair, in their
    order, and a context is created for each URL. *)
Theorem check_status_list_statuses (B Ctx : Type)
    (creat : B -> outcome Ctx * B)
    (getx : Ctx -> str -> str -> B -> outcome str * B)
    (creat_ok : forall b, exists c b', creat b = (Ok c, b'))
    (surls : list str) (w : world B) :
  Forall (answered getx) surls ->
  exists results tr w',
    check_status_list B Ctx creat getx true surls true w = (Ok results, w') /\
    trace w' = trace w ++ tr /\
    map fst results = surls /\
    Forall (fun r => exists c b b',
                getx c (fst r) USER_STATUS b = (Ok (snd r), b')) results /\
    printed tr = map (fun r => status_line (fst r) (snd r)) results /\
    contexts tr = length surls.
Proof.
  intros Hall.
  destruct (check_loop_answered B Ctx creat getx creat_ok surls (length surls)
              Hall 0 [] w ltac:(lia))
    as (rs & tr & b' & Hl & Hfst & Hpr & Hctx & Hans).
  exists rs, tr, (mkWorld (trace w ++ tr) b').
  unfold check_status_list. rewrite Hl.
  rewrite skipn_O in Hfst. rewrite Nat.sub_0_r in Hctx. auto 10.
Qed.

Lemma sample_answered (u : str) : answered Sample.getxattr u.
Proof.
  intros c b. unfold Sample.getxattr.
  repeat (destruct (PyStr.eqb u _); [eauto|]). eauto.
Qed.

Lemma check_status_list_statuses_witness :
  Forall (answered Sample.getxattr) [Sample.file1; Sample.file2] /\
  exists results tr w',
    check_status_list nat unit Sample.creat_context Sample.getxattr
      true [Sample.file1; Sample.file2] true Sample.world0 = (Ok results, w') /\
    trace w' = trace Sample.world0 ++ tr /\
    map fst results = [Sample.file1; Sample.file2] /\
    Forall (fun r => exists c b b',
                Sample.getxattr c (fst r) USER_STATUS b = (Ok (snd r), b'))
      results /\
    printed tr = map (fun r => status_line (fst r) (snd r)) results /\
    contexts tr = 2.
Proof.
  assert (H : Forall (answered Sample.getxattr) [Sample.file1; Sample.file2])
    by (repeat constructor; apply sample_answered).
  split; [exact H|].
  exact (check_status_list_statuses nat unit Sample.creat_context
           Sample.getxattr sample_creat_ok
           [Sample.file1; Sample.file2] Sample.world0 H).
Defined.

(** X6. A lookup that is refused ends [check_status_list] with the
    exception of the backend: the URLs before it were looked up and
    shown, it was looked up, none after it is, the pauses made are those
    of the batches completed before, and no result is returned. *)
Theorem check_status_list_fail_fast (B Ctx : Type)
    (creat : B -> outcome Ctx * B)
    (getx : Ctx -> str -> str -> B -> outcome str * B)
    (creat_ok : forall b, exists c b', creat b = (Ok c, b'))
    (pre post : list str) (bad : str) (e : exn) (w : world B) :
  Forall (answered getx) pre ->
  refused getx bad e ->
  exists tr w',
    check_status_list B Ctx creat getx true (pre ++ bad :: post) true w =
      (Raise e, w') /\
    trace w' = trace w ++ tr /\
    queries tr = map (fun u => (u, USER_STATUS)) (pre ++ [bad]) /\
    pauses tr = repeat 1 (length pre / 100) /\
    length (printed tr) = length pre.
Proof.
  intros Hall Hbad.
  destruct (check_loop_refused B Ctx creat getx creat_ok bad e Hbad pre post
              (length pre) Hall 0 [] w ltac:(lia) ltac:(lia))
    as (tr & b' & Hl & Hq & Hp & Hpr).
  exists tr, (mkWorld (trace w ++ tr) b').
  unfold check_status_list. rewrite Hl.
  rewrite skipn_O in Hq. rewrite Nat.sub_0_r in Hp, Hpr. auto.
Qed.

Lemma faulty_answered (u : str) :
  PyStr.eqb u Faulty.missing = false -> answered Faulty.getxattr u.
Proof.
  intros Hu c b. unfold Faulty.getxattr. rewrite Hu. apply sample_answered.
Qed.

Lemma faulty_refused :
  refused Faulty.getxattr Faulty.missing Faulty.no_such_file.
Proof. intros c b. exists (S b). reflexivity. Qed.

Lemma check_status_list_fail_fast_witness :
  Forall (answered Faulty.getxattr) [Sample.file1; Sample.file2] /\
  refused Faulty.getxattr Faulty.missing Faulty.no_such_file /\
  exists tr w',
    check_status_list nat unit Sample.creat_context Faulty.getxattr true
      ([Sample.file1; Sample.file2] ++ Faulty.missing :: [Sample.file3])
      true Sample.world0 = (Raise Faulty.no_such_file, w') /\
    trace w' = trace Sample.world0 ++ tr /\
    queries tr = map (fun u => (u, USER_STATUS))
                   ([Sample.file1; Sample.file2] ++ [Faulty.missing]) /\
    pauses tr = repeat 1 (length [Sample.file1; Sample.file2] / 100) /\
    length (printed tr) = length [Sample.file1; Sample.file2].
Proof.
  assert (H : Forall (answered Faulty.getxattr) [Sample.file1; Sample.file2])
    by (repeat constructor; apply faulty_answered; reflexivity).
  split; [exact H|]. split; [exact faulty_refused|].
  exact (check_status_list_fail_fast nat unit Sample.creat_context
           Faulty.getxattr sample_creat_ok
           [Sample.file1; Sample.file2] [Sample.file3] Faulty.missing
           Faulty.no_such_file Sample.world0 H faulty_refused).
Defined.

(** X7. Without the verbose flag [check_status_list] on a list that is
    not empty ends with [UnboundLocalError] for [color] after the lookup
    of the first URL, with nothing shown and no pause. *)
Theorem check_status_list_quiet (B Ctx : Type)
    (creat : B -> outcome Ctx * B)
    (getx : Ctx -> str -> str -> B -> outcome str * B)
    (u : str) (surls : list str) (w : world B)
    (c : Ctx) (b1 b2 : B) (status : str) :
  creat (backend w) = (Ok c, b1) ->
  getx c u USER_STATUS b1 = (Ok status, b2) ->
  check_status_list B Ctx creat getx true (u :: surls) false w =
    (Raise (UnboundLocalError (lit "color")),
     mkWorld (trace w ++ [EvCreatContext; EvGetxattr u USER_STATUS]) b2).
Proof.
  intros Hc Hg. unfold check_status_list. rewrite check_loop_eq.
  destruct (lt_dec 0 (length (u :: surls))) as [_|Hn]; [|cbn in Hn; lia].
  unfold slice, nf. cbn [length Nat.add Nat.min Nat.sub skipn firstn check_batch].
  unfold bind at 1. unfold bind at 1.
  pose proof (check_status_run B Ctx creat getx u false w c b1 b2 status Hc Hg)
    as Hrun. cbn iota in Hrun. rewrite Hrun. reflexivity.
Qed.

Lemma check_status_list_quiet_witness :
  Sample.creat_context (backend Sample.world0) = (Ok tt, 0) /\
  Sample.getxattr tt Sample.file1 USER_STATUS 0 = (Ok ONLINE, 1) /\
  check_status_list nat unit Sample.creat_context Sample.getxattr true
    (Sample.file1 :: [Sample.file2]) false Sample.world0 =
    (Raise (UnboundLocalError (lit "color")),
     mkWorld (trace Sample.world0 ++
              [EvCreatContext; EvGetxattr Sample.file1 USER_STATUS]) 1).
Proof.
  split; [reflexivity|]. split; [reflexivity|].
  apply (check_status_list_quiet nat unit Sample.creat_context Sample.getxattr
           Sample.file1 [Sample.file2] Sample.world0 tt 0 1 ONLINE);
    reflexivity.
Defined.

(** ** More on the script *)

(** X8. Without a file argument the script ends with [IndexError] and
    opens nothing; with a file that cannot be read it ends with [IOError]
    for that file, before the backend is used.  The notice of the import
    guard, if any, is all that is written. *)
Theorem script_input_errors (py : python) (B Ctx : Type)
    (creat : B -> outcome Ctx * B)
    (getx : Ctx -> str -> str -> B -> outcome str * B)
    (read_file : str -> option str) (float_str : PyFloat.float -> str)
    (installed : bool) (argv : list str) (w : world B) :
  let notice := if installed then [] else [EvPrint IMPORT_NOTICE] in
  (nth_error argv 1 = None ->
   script py B Ctx creat getx read_file float_str installed argv w =
     (Raise IndexError, mkWorld (trace w ++ notice) (backend w))) /\
  (forall files,
      nth_error argv 1 = Some files ->
      read_file files = None ->
      script py B Ctx creat getx read_file float_str installed argv w =
        (Raise (IOError files),
         mkWorld (trace w ++ notice ++ [EvOpen files]) (backend w))).
Proof.
  cbv zeta. split.
  - intros Hargv.
    cbv [script bind import_gfal2 print emit ret main lift].
    destruct installed; cbn [trace backend]; rewrite Hargv, ?app_nil_r;
      destruct w; reflexivity.
  - intros files Hargv Hread.
    cbv [script bind import_gfal2 print emit ret main lift convert_to_surl
         open_read raise].
    destruct installed; cbn [trace backend]; rewrite Hargv, Hread;
      rewrite <- ?app_assoc; reflexivity.
Qed.

Lemma script_input_errors_witness :
  nth_error [lit "state.py"; lit "nowhere"] 1 = Some (lit "nowhere") /\
  Sample.read_file (lit "nowhere") = None /\
  script Python3 nat unit Sample.creat_context Sample.getxattr
    Sample.read_file Sample.float_str true [lit "state.py"; lit "nowhere"]
    Sample.world0 =
    (Raise (IOError (lit "nowhere")),
     mkWorld (trace Sample.world0 ++ [] ++ [EvOpen (lit "nowhere")])
       (backend Sample.world0)).
Proof.
  split; [reflexivity|]. split; [reflexivity|].
  apply (proj2 (script_input_errors Python3 nat unit Sample.creat_context
                  Sample.getxattr Sample.read_file Sample.float_str true
                  [lit "state.py"; lit "nowhere"] Sample.world0));
    reflexivity.
Defined.

(** X9. On a file that holds no URL (nothing but whitespace of the
    interpreter that runs the script) the script, with [gfal2] in place,
    ends with [ZeroDivisionError]: the file is opened, the backend is not
    used, nothing is written and no pause is made. *)
Theorem script_no_urls (py : python) (B Ctx : Type)
    (creat : B -> outcome Ctx * B)
    (getx : Ctx -> str -> str -> B -> outcome str * B)
    (read_file : str -> option str) (float_str : PyFloat.float -> str)
    (argv : list str) (files text : str) (w : world B) :
  nth_error argv 1 = Some files ->
  read_file files = Some text ->
  forallb (isspace py) text = true ->
  script py B Ctx creat getx read_file float_str true argv w =
    (Raise ZeroDivisionError, mkWorld (trace w ++ [EvOpen files]) (backend w)).
Proof.
  intros Hargv Hread Hblank.
  cbv [script bind import_gfal2 ret main lift convert_to_surl open_read emit
       raise].
  cbn [trace backend]. rewrite Hargv, Hread.
  unfold convert_text, split_whitespace.
  rewrite (words_scan_blank py text Hblank). cbn [convert_urls].
  rewrite check_status_list_nil. reflexivity.
Qed.

Lemma script_no_urls_witness :
  (nth_error [lit "state.py"; Spaces.blank] 1 = Some Spaces.blank /\
   Spaces.read_file Spaces.blank = Some [Spaces.nbsp] /\
   forallb (isspace Python3) [Spaces.nbsp] = true /\
   script Python3 nat unit Sample.creat_context Sample.getxattr
     Spaces.read_file Sample.float_str true [lit "state.py"; Spaces.blank]
     Sample.world0 =
     (Raise ZeroDivisionError,
      mkWorld (trace Sample.world0 ++ [EvOpen Spaces.blank])
        (backend Sample.world0))) /\
  (nth_error [lit "state.py"; lit "empty"] 1 = Some (lit "empty") /\
   Sample.read_file (lit "empty") = Some [] /\
   forallb (isspace Python2) [] = true /\
   script Python2 nat unit Sample.creat_context Sample.getxattr
     Sample.read_file Sample.float_str true [lit "state.py"; lit "empty"]
     Sample.world0 =
     (Raise ZeroDivisionError,
      mkWorld (trace Sample.world0 ++ [EvOpen (lit "empty")])
        (backend Sample.world0))).
Proof.
  split.
  - split; [reflexivity|]. split; [reflexivity|]. split; [reflexivity|].
    apply (script_no_urls Python3 nat unit Sample.creat_context
             Sample.getxattr Spaces.read_file Sample.float_str
             [lit "state.py"; Spaces.blank] Spaces.blank [Spaces.nbsp]
             Sample.world0); reflexivity.
  - split; [reflexivity|]. split; [reflexivity|]. split; [reflexivity|].
    apply (script_no_urls Python2 nat unit Sample.creat_context
             Sample.getxattr Sample.read_file Sample.float_str
             [lit "state.py"; lit "empty"] (lit "empty") [] Sample.world0);
      reflexivity.
Defined.

(** X10. The whole run, with [gfal2] in place, a backend that answers and
    a file with at least one URL: the file is opened, the SURLs of the
    pieces of [f.read().split()], under the interpreter that runs the
    script, are looked up in their order with the pauses of their
    batches, a line is shown for each, and the run ends by writing and
    returning [str] of the percentage of the results. *)
Theorem script_run (py : python) (B Ctx : Type)
    (creat : B -> outcome Ctx * B)
    (getx : Ctx -> str -> str -> B -> outcome str * B)
    (read_file : str -> option str) (float_str : PyFloat.float -> str)
    (creat_ok : forall b, exists c b', creat b = (Ok c, b'))
    (getxattr_ok : forall c surl b, exists status b',
        getx c surl USER_STATUS b = (Ok status, b'))
    (argv : list str) (files text : str) (w : world B) :
  nth_error argv 1 = Some files ->
  read_file files = Some text ->
  split_whitespace py text <> [] ->
  (Z.of_nat (length (split_whitespace py text)) < 2 ^ 1023)%Z ->
  exists surls results v tr w',
    convert_text py text = Ok surls /\
    length surls = length (split_whitespace py text) /\
    map fst results = surls /\
    percent_value results = Ok v /\
    script py B Ctx creat getx read_file float_str true argv w =
      (Ok (float_str v), w') /\
    trace w' =
      trace w ++ [EvOpen files] ++ tr ++
      [EvPrint (float_str v ++ lit " percent of files staged")] /\
    queries tr = map (fun u => (u, USER_STATUS)) surls /\
    pauses tr = repeat 1 (batches (length surls)) /\
    printed tr = map (fun r => status_line (fst r) (snd r)) results.
Proof.
  intros Hargv Hread Hne Hlen.
  destruct (convert_urls_shape (split_whitespace py text) [])
    as (surls & Hconv & Hlens & _).
  change (convert_urls (split_whitespace py text) []) with (convert_text py text)
    in Hconv. cbn [app] in Hconv.
  assert (Hall : Forall (answered getx) surls).
  { apply Forall_forall. intros u _ c b. apply getxattr_ok. }
  destruct (check_status_list_run B Ctx creat getx creat_ok getxattr_ok surls
              (mkWorld (trace w ++ [EvOpen files]) (backend w)))
    as (results & tr & b' & Hrun & Hfst & Hq & Hp & _).
  destruct (check_loop_answered B Ctx creat getx creat_ok surls (length surls)
              Hall 0 [] (mkWorld (trace w ++ [EvOpen files]) (backend w))
              ltac:(lia))
    as (results' & tr' & b'' & Hrun' & _ & Hpr' & _).
  unfold check_status_list in Hrun. rewrite Hrun in Hrun'.
  injection Hrun' as <- Htr' _.
  apply app_inv_head in Htr'. subst tr'.
  fold (check_status_list B Ctx creat getx true surls true) in Hrun.
  assert (Hlenr : length results = length surls)
    by (rewrite <- Hfst; symmetry; apply length_map).
  destruct (percent_value_run results
              ltac:(destruct results; [destruct (split_whitespace py text);
                                       [congruence | cbn in *; lia]
                                      | discriminate])
              ltac:(rewrite Hlenr, Hlens; exact Hlen))
    as (fs & ft & v & _ & _ & _ & _ & Hval & _).
  exists surls, results, v, tr. eexists.
  split; [exact Hconv|]. split; [exact Hlens|]. split; [exact Hfst|].
  split; [exact Hval|].
  split.
  - cbv [script bind import_gfal2 ret main lift convert_to_surl open_read emit
         raise].
    cbn [trace backend]. rewrite Hargv, Hread, Hconv, Hrun.
    unfold percent_staged, bind, lift, print, emit, ret. rewrite Hval.
    reflexivity.
  - cbn [trace]. rewrite <- !app_assoc. auto.
Qed.

Lemma script_run_witness :
  nth_error [lit "state.py"; Spaces.files] 1 = Some Spaces.files /\
  Spaces.read_file Spaces.files = Some Spaces.nbsp_text /\
  split_whitespace Python3 Spaces.nbsp_text <> [] /\
  (Z.of_nat (length (split_whitespace Python3 Spaces.nbsp_text))
   < 2 ^ 1023)%Z /\
  exists surls results v tr w',
    convert_text Python3 Spaces.nbsp_text = Ok surls /\
    length surls = length (split_whitespace Python3 Spaces.nbsp_text) /\
    map fst results = surls /\
    percent_value results = Ok v /\
    script Python3 nat unit Sample.creat_context Sample.getxattr
      Spaces.read_file Sample.float_str true [lit "state.py"; Spaces.files]
      Sample.world0 =
      (Ok (Sample.float_str v), w') /\
    trace w' =
      trace Sample.world0 ++ [EvOpen Spaces.files] ++ tr ++
      [EvPrint (Sample.float_str v ++ lit " percent of files staged")] /\
    queries tr = map (fun u => (u, USER_STATUS)) surls /\
    pauses tr = repeat 1 (batches (length surls)) /\
    printed tr = map (fun r => status_line (fst r) (snd r)) results.
Proof.
  assert (Hne : split_whitespace Python3 Spaces.nbsp_text <> [])
    by discriminate.
  assert (Hlen : (Z.of_nat (length (split_whitespace Python3 Spaces.nbsp_text))
                  < 2 ^ 1023)%Z) by (vm_compute; reflexivity).
  split; [reflexivity|]. split; [reflexivity|].
  split; [exact Hne|]. split; [exact Hlen|].
  exact (script_run Python3 nat unit Sample.creat_context Sample.getxattr
           Spaces.read_file Sample.float_str sample_creat_ok
           sample_getxattr_ok [lit "state.py"; Spaces.files] Spaces.files
           Spaces.nbsp_text Sample.world0 eq_refl eq_refl Hne Hlen).
Defined.

(** ** More on percent_staged *)

Section MorePercentFacts.

Local Open Scope Z_scope.

(** A float divided by itself is 1. *)
Lemma SFdiv_self (m : positive) (e : Z) :
  SFdiv PyFloat.prec PyFloat.emax (S754_finite false m e) (S754_finite false m e)
  = S754_finite false 4503599627370496 (-52).
Proof.
  cbn [SFdiv]. unfold SFdiv_core_binary.
  rewrite !Z.sub_diag.
  change (Z.min (fexp PyFloat.prec PyFloat.emax 0) 0) with (-53).
  change (0 - -53) with 53.
  rewrite Z.shiftl_mul_pow2 by lia.
  pose proof (Z_div_mod (Zpos m * 2 ^ 53) (Zpos m) ltac:(lia)) as Hdm.
  destruct (Z.div_eucl (Zpos m * 2 ^ 53) (Zpos m)) as [q r].
  destruct Hdm as [Hq Hr].
  destruct (Z.div_mod_unique (Zpos m) q (2 ^ 53) r 0) as [-> ->];
    [left; exact Hr | left; lia | lia |].
  assert (Hloc : new_location (Zpos m) 0 = loc_Exact)
    by (unfold new_location, new_location_even, new_location_odd;
        destruct (Z.even (Zpos m)); reflexivity).
  rewrite Hloc. vm_compute. reflexivity.
Qed.

End MorePercentFacts.

Lemma count_status_all (a b : str) (results : list (str * str)) :
  a <> b ->
  Forall (fun r => snd r = a \/ snd r = b) results ->
  count_status a results + count_status b results = length results.
Proof.
  intros Hab Hall. unfold count_status.
  induction Hall as [|[u st] results Hst _ IH]; cbn [List.filter length snd].
  - reflexivity.
  - cbn [snd] in Hst. destruct Hst as [-> | ->].
    + rewrite str_eqb_refl.
      destruct (PyStr.eqb a b) eqn:E; [apply eqb_eq in E; contradiction|].
      cbn [length]. lia.
    + rewrite str_eqb_refl.
      destruct (PyStr.eqb b a) eqn:E;
        [apply eqb_eq in E; symmetry in E; contradiction|].
      cbn [length]. lia.
Qed.

Lemma count_status_none (a : str) (results : list (str * str)) :
  Forall (fun r => snd r <> a) results -> count_status a results = 0.
Proof.
  intros Hall. unfold count_status.
  induction Hall as [|[u st] results Hst _ IH]; cbn [List.filter length snd].
  - reflexivity.
  - cbn [snd] in Hst.
    destruct (PyStr.eqb st a) eqn:E; [apply eqb_eq in E; contradiction|].
    exact IH.
Qed.

(** X11. When every result is ONLINE or ONLINE_AND_NEARLINE the
    percentage is exactly the float 100. *)
Theorem percent_all_staged (results : list (str * str)) :
  results <> [] ->
  (Z.of_nat (length results) < 2 ^ 1023)%Z ->
  Forall (fun r => snd r = ONLINE_AND_NEARLINE \/ snd r = ONLINE) results ->
  percent_value results = Ok PyFloat.hundred.
Proof.
  intros Hne Hlen Hall. unfold percent_value.
  destruct (tally_counts results) as (Htot & Hst & _).
  rewrite Hst, Htot, (count_status_all ONLINE_AND_NEARLINE ONLINE results
                        ltac:(discriminate) Hall).
  destruct (of_int_mono (Z.of_nat (length results)) (Z.of_nat (length results))
              ltac:(destruct results; [congruence | cbn [length]; lia]) Hlen)
    as (m & e & m' & e' & Hf & _ & _).
  rewrite Hf. cbn [PyFloat.div]. rewrite SFdiv_self. vm_compute. reflexivity.
Qed.

Lemma percent_all_staged_witness :
  [(Sample.file1, ONLINE); (Sample.file3, ONLINE_AND_NEARLINE)] <> [] /\
  percent_value [(Sample.file1, ONLINE); (Sample.file3, ONLINE_AND_NEARLINE)]
    = Ok PyFloat.hundred.
Proof.
  assert (Hne : [(Sample.file1, ONLINE); (Sample.file3, ONLINE_AND_NEARLINE)]
                <> []) by discriminate.
  split; [exact Hne|].
  apply (percent_all_staged _ Hne).
  - vm_compute. reflexivity.
  - constructor; [right; reflexivity|].
    constructor; [left; reflexivity|]. constructor.
Defined.

(** X12. When no result is ONLINE or ONLINE_AND_NEARLINE the percentage
    is exactly the float 0. *)
Theorem percent_none_staged (results : list (str * str)) :
  results <> [] ->
  (Z.of_nat (length results) < 2 ^ 1023)%Z ->
  Forall (fun r => snd r <> ONLINE_AND_NEARLINE /\ snd r <> ONLINE) results ->
  percent_value results = Ok (S754_zero false).
Proof.
  intros Hne Hlen Hall. unfold percent_value.
  destruct (tally_counts results) as (Htot & Hst & _).
  rewrite Hst, Htot.
  rewrite (count_status_none ONLINE_AND_NEARLINE results)
    by (eapply List.Forall_impl; [|exact Hall]; cbn; tauto).
  rewrite (count_status_none ONLINE results)
    by (eapply List.Forall_impl; [|exact Hall]; cbn; tauto).
  change (Z.of_nat (0 + 0)) with 0%Z. rewrite of_int_zero.
  destruct (of_int_mono (Z.of_nat (length results)) (Z.of_nat (length results))
              ltac:(destruct results; [congruence | cbn [length]; lia]) Hlen)
    as (m & e & m' & e' & Hf & _ & _).
  rewrite Hf. reflexivity.
Qed.

Lemma percent_none_staged_witness :
  [(Sample.file2, NEARLINE)] <> [] /\
  percent_value [(Sample.file2, NEARLINE)] = Ok (S754_zero false).
Proof.
  assert (Hne : [(Sample.file2, NEARLINE)] <> []) by discriminate.
  split; [exact Hne|].
  apply (percent_none_staged _ Hne).
  - vm_compute. reflexivity.
  - constructor; [split; discriminate | constructor].
Defined.

Lemma count_status_map (k : str) (results : list (str * str)) :
  count_status k results =
  length (List.filter (fun st => PyStr.eqb st k) (map snd results)).
Proof.
  unfold count_status.
  induction results as [|[u st] results IH]; cbn [map List.filter snd];
    [reflexivity|].
  destruct (PyStr.eqb st k); cbn [length]; rewrite IH; reflexivity.
Qed.

Lemma filter_length_Permutation {A} (f : A -> bool) (l1 l2 : list A) :
  Permutation l1 l2 ->
  length (List.filter f l1) = length (List.filter f l2).
Proof.
  induction 1 as [|x l1 l2 _ IH|x y l|l1 l2 l3 _ IH1 _ IH2];
    cbn [List.filter].
  - reflexivity.
  - destruct (f x); cbn [length]; rewrite IH; reflexivity.
  - destruct (f x), (f y); reflexivity.
  - congruence.
Qed.

(** X13. The percentage depends on the statuses only, not on their order
    nor on the URLs: two sequences of results whose statuses are the same
    up to order give the same tallies, the same float and the same
    output. *)
Theorem percent_staged_statuses_only (B : Type)
    (float_str : PyFloat.float -> str)
    (results1 results2 : list (str * str)) (w : world B) :
  Permutation (map snd results1) (map snd results2) ->
  percent_staged_tally results1 = percent_staged_tally results2 /\
  percent_value results1 = percent_value results2 /\
  percent_staged B float_str results1 w = percent_staged B float_str results2 w.
Proof.
  intros Hperm.
  assert (Hcount : forall k, count_status k results1 = count_status k results2).
  { intros k. rewrite !count_status_map.
    apply filter_length_Permutation. exact Hperm. }
  assert (Htally : percent_staged_tally results1 = percent_staged_tally results2).
  { unfold percent_staged_tally. rewrite !counter_get_Counter, !Hcount.
    f_equal. rewrite <- (length_map snd results1), <- (length_map snd results2).
    apply Permutation_length. exact Hperm. }
  assert (Hval : percent_value results1 = percent_value results2)
    by (unfold percent_value; rewrite Htally; reflexivity).
  repeat split; [exact Htally | exact Hval |].
  unfold percent_staged. rewrite Hval. reflexivity.
Qed.

Lemma percent_staged_statuses_only_witness :
  Permutation (map snd Sample.results3)
    (map snd [(Sample.file3, NEARLINE); (Sample.file1, ONLINE_AND_NEARLINE);
              (Sample.file2, ONLINE)]) /\
  percent_value Sample.results3 =
  percent_value [(Sample.file3, NEARLINE); (Sample.file1, ONLINE_AND_NEARLINE);
                 (Sample.file2, ONLINE)].
Proof.
  assert (H : Permutation (map snd Sample.results3)
    (map snd [(Sample.file3, NEARLINE); (Sample.file1, ONLINE_AND_NEARLINE);
              (Sample.file2, ONLINE)])).
  { cbn [map snd Sample.results3].
    apply (perm_trans (l' := [NEARLINE; ONLINE; ONLINE_AND_NEARLINE])).
    - apply perm_swap.
    - apply perm_skip, perm_swap. }
  split; [exact H|].
  exact (proj1 (proj2 (percent_staged_statuses_only nat Sample.float_str
                  Sample.results3 _ Sample.world0 H))).
Defined.
